(** * sidecar-executor: a Mesos executor that runs one Docker container per
    task, watches it through Docker and Sidecar, and relays its logs.

    Shallow embedding of [main.go] and [log_relay.go].  Every call that
    leaves the process (Docker, the Mesos driver, HTTP, the loggers, the
    clock) is recorded as an [Event] of a trace; the answers of the outside
    world are read from explicit world records.  A Go panic is an outcome of
    its own. *)

From stdpp Require Import base numbers strings list gmap.

Local Open Scope Z_scope.
Local Open Scope string_scope.
Local Open Scope list_scope.

(** ** Go values *)

(** A Go [error] value.  [errors_New] is [errors.New] called by this program;
    [foreign] is an error handed back by a library (Docker client, net/http,
    encoding/json, the Mesos driver). *)
Inductive error : Type :=
| errors_New (text : string)
| foreign (origin text : string).

#[global] Instance error_eq_dec : EqDecision error.
Proof. solve_decision. Defined.

Definition error_Error (e : error) : string :=
  match e with
  | errors_New text => text
  | foreign _ text => text
  end.

(** [time.Duration] counts nanoseconds. *)
Definition time_Second : Z := 1000000000.
Definition time_Minute : Z := 60 * time_Second.

(** The first [const] block of main.go: [iota] is the index of the line. *)
Definition TaskRunning : Z := 0.
Definition TaskFinished : Z := 1.
Definition TaskFailed : Z := 2.
Definition TaskKilled : Z := 3.

(** The second [const] block. *)
Definition KillTaskTimeout : Z := 5.
Definition HttpTimeout : Z := 2 * time_Second.
Definition SidecarRetryCount : nat := 5.
Definition SidecarRetryDelay : Z := 3 * time_Second.
Definition SidecarUrl : string := "http://localhost:7777/state.json".
Definition SidecarBackoff : Z := 1 * time_Minute.

(** [mesos.TaskState], the values [sendStatus] can produce. *)
Inductive mesos_TaskState : Type :=
| TASK_RUNNING | TASK_FINISHED | TASK_FAILED | TASK_KILLED.

#[global] Instance mesos_TaskState_eq_dec : EqDecision mesos_TaskState.
Proof. solve_decision. Defined.

(** [docker.Container], with the fields the executor reads. *)
Record Container : Type := mkContainer {
  ID : string;
  State_ExitCode : Z
}.

(** [service.Service] of Sidecar and its status constants (an [iota] block in
    the Sidecar library: ALIVE, TOMBSTONE, UNHEALTHY, UNKNOWN). *)
Record Service : Type := mkService { Status : Z }.

Definition ALIVE : Z := 0.
Definition TOMBSTONE : Z := 1.
Definition UNHEALTHY : Z := 2.
Definition UNKNOWN : Z := 3.

(** [SidecarServices]: servers by host name, services by short container id. *)
Record Server : Type := mkServer { Services : gmap string Service }.
Record SidecarServices : Type := mkSidecarServices { Servers : gmap string Server }.

(** [mesos.TaskInfo].  [ForcePullImage] is read through a chain of pointers,
    [None] stands for a nil pointer on that chain. *)
Record TaskInfo : Type := mkTaskInfo {
  Name : string;
  TaskId : string;
  Command_Value : string;
  ForcePullImage : option bool
}.

(** ** Events and runs *)

Inductive Level : Type := Debug | Info | Warn | Error.

#[global] Instance Level_eq_dec : EqDecision Level.
Proof. solve_decision. Defined.

Inductive Event : Type :=
| EvLog (lvl : Level) (text : string)
| EvWriteFile (path : string)
| EvSendStatusUpdate (state : option mesos_TaskState) (taskId : string)
| EvPullImage
| EvCreateContainer
| EvStartContainer (id : string)
| EvGo (what : string)
| EvSleep (d : Z)
| EvTick (d : Z)
| EvDriverStop
| EvListContainers (all : bool)
| EvHttpGet (url : string)
| EvReadAll
| EvBodyClose
| EvStopContainer (id : string) (timeout : Z)
| EvInspectContainer (id : string)
| EvSyslog (lvl : Level) (text : string).

#[global] Instance Event_eq_dec : EqDecision Event.
Proof. solve_decision. Defined.

(** How a call ends: it returns, or the goroutine panics. *)
Inductive Outcome (A : Type) : Type :=
| Done (a : A)
| Panic (msg : string).
Arguments Done {A} a.
Arguments Panic {A} msg.

(** A run is the trace of events up to the end of the call, and how it ended. *)
Definition Run (A : Type) : Type := list Event * Outcome A.

#[global] Instance Run_ret : MRet Run := fun A a => ([], Done a).

#[global] Instance Run_bind : MBind Run := fun A B k m =>
  match m with
  | (t, Done a) => let '(t', r) := k a in (t ++ t', r)
  | (t, Panic msg) => (t, Panic msg)
  end.

Definition emit (e : Event) : Run unit := ([e], Done tt).
Definition panic {A : Type} (msg : string) : Run A := ([], Panic msg).

Definition trace {A : Type} (r : Run A) : list Event := r.1.
Definition outcome {A : Type} (r : Run A) : Outcome A := r.2.

(** [s[:n]] on a Go string: a run-time panic when [n] exceeds the length. *)
Definition slice_to (s : string) (n : nat) : Run string :=
  if decide (n ≤ String.length s)%nat then mret (String.substring 0 n s)
  else panic "slice bounds out of range".

(** ** The Mesos driver and [sendStatus] *)

Record Driver : Type := mkDriver {
  SendStatusUpdate : option mesos_TaskState → string → option error
}.

Definition sendStatus (drv : Driver) (status : Z) (taskId : string) : Run unit :=
  let mesosStatus :=
    if decide (status = TaskRunning) then Some TASK_RUNNING
    else if decide (status = TaskFinished) then Some TASK_FINISHED
    else if decide (status = TaskFailed) then Some TASK_FAILED
    else if decide (status = TaskKilled) then Some TASK_KILLED
    else None in
  emit (EvSendStatusUpdate mesosStatus taskId);;
  match SendStatusUpdate drv mesosStatus taskId with
  | Some err =>
      emit (EvLog Error "Error sending status update %s");;
      panic (error_Error err)
  | None => mret tt
  end.

(** ** Sidecar: [sidecarStatus] *)

(** An [*http.Response]: what [ioutil.ReadAll] gets out of its body. *)
Record Response : Type := mkResponse { Body : string + error }.

(** What one call of [sidecarStatus] meets outside the process: the pair
    returned by the [i]-th [httpClient.Get] (the response pointer may be nil),
    [json.Unmarshal] into [SidecarServices], and the process environment. *)
Record PollWorld : Type := mkPollWorld {
  http_Get : nat → option Response * option error;
  json_Unmarshal : string → SidecarServices + error;
  environ : gmap string string
}.

Definition os_Getenv (w : PollWorld) (key : string) : string :=
  default "" (environ w !! key).

(** The closure [fetch].  [defer resp.Body.Close()] is evaluated before the
    error check: it dereferences [resp]. *)
Definition fetch (w : PollWorld) (i : nat) : Run (string * option error) :=
  emit (EvHttpGet SidecarUrl);;
  let '(resp, err) := http_Get w i in
  match resp with
  | None => panic "invalid memory address or nil pointer dereference"
  | Some r =>
      match err with
      | Some e => emit EvBodyClose;; mret ("", Some e)
      | None =>
          emit EvReadAll;;
          match Body r with
          | inr e => emit EvBodyClose;; mret ("", Some e)
          | inl body => emit EvBodyClose;; mret (body, None)
          end
      end
  end.

(** [for i := 0; i < SidecarRetryCount; i++ { data, err = fetch(); if err != nil
    { continue } }], with [n] iterations left.  The [continue] is the last
    statement of the body. *)
Fixpoint retryLoop (w : PollWorld) (n i : nat) (st : string * option error)
  : Run (string * option error) :=
  match n with
  | O => mret st
  | S n' =>
      st' ← fetch w i;
      match st'.2 with
      | Some _ => retryLoop w n' (S i) st'
      | None => retryLoop w n' (S i) st'
      end
  end.

Definition sidecarStatus (w : PollWorld) (container : Container) : Run (option error) :=
  '(data, err) ← retryLoop w SidecarRetryCount 0 ("", None);
  match err with
  | Some _ =>
      emit (EvLog Error "Can't contact Sidecar! Assuming healthy...");;
      mret None
  | None =>
      match json_Unmarshal w data with
      | inr _ =>
          emit (EvLog Error "Can't parse Sidecar results! Assuming healthy...");;
          mret None
      | inl services =>
          let hostname := os_Getenv w "TASK_HOST" in
          match Servers services !! hostname with
          | None =>
              emit (EvLog Error
                "Can't find this server ('%s') in the Sidecar state! Assuming healthy...");;
              mret None
          | Some server =>
              short ← slice_to (ID container) 12;
              match Services server !! short with
              | None =>
                  emit (EvLog Error
                    "Can't find this service in Sidecar yet! Assuming healthy...");;
                  mret None
              | Some svc =>
                  if decide (Status svc = UNHEALTHY ∨ Status svc = TOMBSTONE)
                  then mret (Some (errors_New
                         ("Unhealthy container: " +:+ ID container +:+ " failing task!")))
                  else mret None
              end
          end
      end
  end.

(** ** Docker and the health watch: [watchContainer] *)

(** [docker.APIContainers], an entry of a container listing. *)
Module APIContainers.
Record t : Type := mk { ID : string; Status : string }.
End APIContainers.

(** The Docker client's answers during launch and kill. *)
Record Docker : Type := mkDocker {
  CreateContainer : Container + error;
  StartContainer : string → option error;
  StopContainer : string → Z → option error;
  InspectContainer : string → Container + error
}.

(** What one pass of the watch loop meets: the answer to [ListContainers] and
    the world of the Sidecar poll that may follow. *)
Record IterWorld : Type := mkIterWorld {
  ListContainers : list APIContainers.t + error;
  poll : PollWorld
}.

(** [for _, entry := range containers { if entry.ID == container.ID { ok = true } }] *)
Definition find_entry (container : Container) (containers : list APIContainers.t) : bool :=
  foldl (fun ok entry =>
           if decide (APIContainers.ID entry = ID container) then true else ok)
        false containers.

Definition notRunning (container : Container) : error :=
  errors_New ("Container " +:+ ID container +:+ " not running!").

(** The function handed to [looper.Loop]. *)
Definition watchIteration (container : Container) (it : IterWorld) : Run (option error) :=
  emit (EvListContainers true);;
  match ListContainers it with
  | inr err => mret (Some err)
  | inl containers =>
      let ok := find_entry container containers in
      if negb ok then mret (Some (notRunning container))
      else
        err ← sidecarStatus (poll it) container;
        match err with
        | Some e => mret (Some e)
        | None => mret None
        end
  end.

(** Where a [director.TimedLooper] stands: still looping when the observed
    passes end, or stopped with what it handed to [Done]. *)
Inductive LoopResult : Type :=
| StillLooping
| Stopped (err : option error).

(** [Loop] of go-director's immediate timed looper with count FOREVER: the
    function runs at once, then after every tick, until it returns an error;
    the error goes to [Done] and the loop ends.  One element of [its] is
    consumed per pass. *)
Fixpoint looper_Loop (interval : Z) (fn : IterWorld → Run (option error))
    (its : list IterWorld) : Run LoopResult :=
  match its with
  | [] => mret StillLooping
  | it :: rest =>
      err ← fn it;
      match err with
      | Some e => mret (Stopped (Some e))
      | None => emit (EvTick interval);; looper_Loop interval fn rest
      end
  end.

Definition watchContainer (container : Container) (its : list IterWorld) : Run LoopResult :=
  emit (EvSleep SidecarBackoff);;
  looper_Loop (3 * time_Second) (watchIteration container) its.

(** ** Reporting the end of a task *)

Definition finishTask (drv : Driver) (taskInfo : TaskInfo) : Run unit :=
  sendStatus drv TaskFinished (TaskId taskInfo);;
  emit (EvSleep (1 * time_Second));;
  emit EvDriverStop.

Definition failTask (drv : Driver) (taskInfo : TaskInfo) : Run unit :=
  sendStatus drv TaskFailed (TaskId taskInfo);;
  emit (EvSleep (1 * time_Second));;
  emit EvDriverStop.

(** ** [LaunchTask] *)

(** The callback itself, up to the two [go] statements.  It returns the
    container the goroutines were started for, if any. *)
Definition LaunchTask (drv : Driver) (dk : Docker) (taskInfo : TaskInfo)
  : Run (option Container) :=
  emit (EvLog Info "Launching task %s with command '%s'");;
  emit (EvLog Info "Task ID ");;
  emit (EvWriteFile "/tmp/taskinfo.json");;
  sendStatus drv TaskRunning (TaskId taskInfo);;
  match ForcePullImage taskInfo with
  | None => panic "invalid memory address or nil pointer dereference"
  | Some true => emit EvPullImage
  | Some false => mret tt
  end;;
  emit EvCreateContainer;;
  match CreateContainer dk with
  | inr err =>
      emit (EvLog Error "Failed to create Docker container: %s");;
      failTask drv taskInfo;;
      mret None
  | inl container =>
      short ← slice_to (ID container) 12;
      emit (EvLog Info ("Starting container with ID " +:+ short));;
      emit (EvStartContainer (ID container));;
      match StartContainer dk (ID container) with
      | Some err =>
          emit (EvLog Error "Failed to create Docker container: %s");;
          failTask drv taskInfo;;
          mret None
      | None =>
          emit (EvGo "watchContainer");;
          emit (EvGo "func");;
          mret (Some container)
      end
  end.

(** The anonymous goroutine of [LaunchTask], given where the looper stands
    when [looper.Wait] is reached. *)
Definition awaitLooper (drv : Driver) (taskInfo : TaskInfo) (container : Container)
    (r : LoopResult) : Run unit :=
  short ← slice_to (ID container) 12;
  emit (EvLog Info "Monitoring container %s for Mesos task %s");;
  match r with
  | StillLooping => mret tt
  | Stopped (Some err) =>
      emit (EvLog Error "Error! %s");;
      failTask drv taskInfo
  | Stopped None =>
      finishTask drv taskInfo;;
      emit (EvLog Info "Task completed: ")
  end.

(** The two goroutines together: the watch loop, then the goroutine that
    waits for it (its one log line before [looper.Wait] is placed with the
    rest of it). *)
Definition monitor (drv : Driver) (taskInfo : TaskInfo) (container : Container)
    (its : list IterWorld) : Run unit :=
  r ← watchContainer container its;
  awaitLooper drv taskInfo container r.

(** ** [KillTask] *)

Definition KillTask (drv : Driver) (dk : Docker) (taskID : string) : Run unit :=
  emit (EvLog Info "Killing task: %s");;
  emit (EvStopContainer taskID KillTaskTimeout);;
  match StopContainer dk taskID KillTaskTimeout with
  | Some err => emit (EvLog Error "Error stopping container %s! %s")
  | None => mret tt
  end;;
  let status := TaskKilled in
  emit (EvInspectContainer taskID);;
  status ← match InspectContainer dk taskID with
           | inl container =>
               if decide (State_ExitCode container = 0) then mret TaskFinished
               else mret status
           | inr err =>
               emit (EvLog Error "Error inspecting container %s! %s");;
               mret status
           end;
  sendStatus drv status taskID;;
  emit (EvSleep (1 * time_Second));;
  emit EvDriverStop.

(** ** A task's life: the callback, its goroutines and a kill request *)

(** Two goroutines on one processor: [true] lets the first one take its next
    step, [false] the second; what is left when the schedule ends runs in
    order. *)
Fixpoint interleave (sched : list bool) (a b : list Event) : list Event :=
  match sched with
  | [] => a ++ b
  | true :: sched' =>
      match a with
      | [] => b
      | x :: a' => x :: interleave sched' a' b
      end
  | false :: sched' =>
      match b with
      | [] => a
      | y :: b' => y :: interleave sched' a b'
      end
  end.

(** [driver.Stop()] lets [driver.Join()] return in [main], which then exits:
    nothing is observed after the first stop. *)
Fixpoint until_exit (tr : list Event) : list Event :=
  match tr with
  | [] => []
  | EvDriverStop :: _ => [EvDriverStop]
  | e :: rest => e :: until_exit rest
  end.

(** A kill request: the task id Mesos passes, and how [KillTask] is scheduled
    against the goroutines of the launch. *)
Record KillRequest : Type := mkKillRequest {
  kill_taskID : string;
  kill_sched : list bool
}.

Definition lifecycle (drv : Driver) (dk : Docker) (taskInfo : TaskInfo)
    (its : list IterWorld) (kill : option KillRequest) : list Event :=
  let '(t0, r) := LaunchTask drv dk taskInfo in
  match r with
  | Done (Some container) =>
      let m := trace (monitor drv taskInfo container its) in
      match kill with
      | Some k =>
          until_exit (t0 ++ interleave (kill_sched k) m
                                (trace (KillTask drv dk (kill_taskID k))))
      | None => until_exit (t0 ++ m)
      end
  | _ => until_exit t0
  end.

Definition is_terminal (s : mesos_TaskState) : bool :=
  match s with
  | TASK_RUNNING => false
  | _ => true
  end.

(** The terminal states a trace reports to Mesos, in order. *)
Fixpoint terminal_reports (tr : list Event) : list mesos_TaskState :=
  match tr with
  | [] => []
  | EvSendStatusUpdate (Some s) _ :: rest =>
      if is_terminal s then s :: terminal_reports rest else terminal_reports rest
  | _ :: rest => terminal_reports rest
  end.

(** The trace without its log lines. *)
Definition is_log (e : Event) : bool :=
  match e with
  | EvLog _ _ => true
  | _ => false
  end.

Definition effects (tr : list Event) : list Event :=
  filter (fun e => is_log e = false) tr.

(** ** Log relay: [handleOneStream] and [relayLogs] *)

(** [quitChan]: whether it has been closed, and how many senders wait on it. *)
Record Chan : Type := mkChan {
  closed : bool;
  senders : nat
}.

(** [select { case <-quitChan: ... default: }]: a receive that does not block.
    It takes the value of a waiting sender, or sees the channel closed. *)
Definition try_recv (ch : Chan) : bool * Chan :=
  match senders ch with
  | S n => (true, mkChan (closed ch) n)
  | O => (closed ch, ch)
  end.

(** One running [handleOneStream]: its stream name, the lines its scanner
    still has to deliver and the error the scanner ends with (if any), whether
    it has returned, and what it has emitted. *)
Record Pump : Type := mkPump {
  stream_name : string;
  scanner_lines : list string;
  scanner_Err : option error;
  returned : bool;
  emitted : list Event
}.

Definition start_pump (name : string) (lines : list string) (err : option error) : Pump :=
  mkPump name lines err false [].

(** One pass of [for scanner.Scan() { ... }], or the code after the loop when
    [Scan] returns false. *)
Definition pump_step (p : Pump) (quitChan : Chan) : Pump * Chan :=
  if returned p then (p, quitChan)
  else
    match scanner_lines p with
    | [] =>
        let errlog :=
          match scanner_Err p with
          | Some _ => [EvLog Error
              "handleOneStream() error reading Docker log input: '%s'. Exiting log pump '%s'."]
          | None => []
          end in
        (mkPump (stream_name p) [] (scanner_Err p) true
           (emitted p ++ errlog ++ [EvLog Warn "Log pump exited for '%s'"]),
         quitChan)
    | text :: rest =>
        let dbg := emitted p ++ [EvLog Debug ("docker: " +:+ text)] in
        let after_send (out : list Event) :=
          let '(quit, ch) := try_recv quitChan in
          (mkPump (stream_name p) rest (scanner_Err p) quit out, ch) in
        if decide (stream_name p = "stdout") then
          after_send (dbg ++ [EvSyslog Info text])
        else if decide (stream_name p = "stderr") then
          after_send (dbg ++ [EvSyslog Error text])
        else
          (mkPump (stream_name p) rest (scanner_Err p) true
             (dbg ++ [EvLog Error
                "handleOneStream(): Unknown stream type '%s'. Exiting log pump."]),
           quitChan)
    end.

(** [handleOneStream] run on its own until it returns. *)
Fixpoint pump_run (fuel : nat) (p : Pump) (quitChan : Chan) : Pump * Chan :=
  match fuel with
  | O => (p, quitChan)
  | S fuel' =>
      let '(p', ch) := pump_step p quitChan in
      if returned p' then (p', ch) else pump_run fuel' p' ch
  end.

Definition handleOneStream (quitChan : Chan) (name : string)
    (lines : list string) (err : option error) : Pump * Chan :=
  pump_run (S (length lines)) (start_pump name lines err) quitChan.

(** [relayLogs] after its two [go] statements: the shared channel, the two
    pumps, and whether [relayLogs] itself still blocks in [<-quitChan]. *)
Record Relay : Type := mkRelay {
  quitChan : Chan;
  pump1 : Pump;
  pump2 : Pump;
  relay_waiting : bool
}.

(** What can happen next: one of the pumps makes a pass, [relayLogs] tries its
    receive, or the owner of the channel closes it or sends on it. *)
Inductive Action : Type :=
| Pass1 | Pass2 | RelayRecv | CloseQuit | SendQuit.

#[global] Instance Action_eq_dec : EqDecision Action.
Proof. solve_decision. Defined.

Definition relay_step (r : Relay) (a : Action) : Relay :=
  match a with
  | Pass1 =>
      let '(p, ch) := pump_step (pump1 r) (quitChan r) in
      mkRelay ch p (pump2 r) (relay_waiting r)
  | Pass2 =>
      let '(p, ch) := pump_step (pump2 r) (quitChan r) in
      mkRelay ch (pump1 r) p (relay_waiting r)
  | RelayRecv =>
      if relay_waiting r then
        let '(got, ch) := try_recv (quitChan r) in
        mkRelay ch (pump1 r) (pump2 r) (negb got)
      else r
  | CloseQuit =>
      mkRelay (mkChan true (senders (quitChan r))) (pump1 r) (pump2 r) (relay_waiting r)
  | SendQuit =>
      mkRelay (mkChan (closed (quitChan r)) (S (senders (quitChan r))))
              (pump1 r) (pump2 r) (relay_waiting r)
  end.

Definition relay_run (r : Relay) (sched : list Action) : Relay :=
  foldl relay_step r sched.

(** The relay with the two pumps under the given names; [relayLogs] starts
    them as "stdout" and "stderr". *)
Definition start_relay (name1 name2 : string) (out_lines err_lines : list string)
    (out_err err_err : option error) : Relay :=
  mkRelay (mkChan false 0) (start_pump name1 out_lines out_err)
          (start_pump name2 err_lines err_err) true.

Definition relayLogs (out_lines err_lines : list string)
    (out_err err_err : option error) : Relay :=
  start_relay "stdout" "stderr" out_lines err_lines out_err err_err.

Definition is_syslog (e : Event) : bool :=
  match e with
  | EvSyslog _ _ => true
  | _ => false
  end.

(** The lines a pump has forwarded to the log sink. *)
Definition forwarded (p : Pump) : list Event :=
  filter (fun e => is_syslog e = true) (emitted p).

(** ** Predicates used in the statements *)

(** The one condition under which Sidecar's answer fails the task. *)
Definition registry_reports_dead (w : PollWorld) (c : Container) (data : string) : Prop :=
  ∃ services server svc,
    json_Unmarshal w data = inl services ∧
    Servers services !! os_Getenv w "TASK_HOST" = Some server ∧
    Services server !! String.substring 0 12 (ID c) = Some svc ∧
    (Status svc = UNHEALTHY ∨ Status svc = TOMBSTONE).

(** The cases in which the answer is taken as healthy: the body does not
    parse, the host is absent, the container is absent, or its status is
    anything else. *)
Definition registry_fail_open (w : PollWorld) (c : Container) (data : string) : Prop :=
  (∃ e, json_Unmarshal w data = inr e) ∨
  (∃ services, json_Unmarshal w data = inl services ∧
     (Servers services !! os_Getenv w "TASK_HOST" = None ∨
      ∃ server, Servers services !! os_Getenv w "TASK_HOST" = Some server ∧
        (Services server !! String.substring 0 12 (ID c) = None ∨
         ∃ svc, Services server !! String.substring 0 12 (ID c) = Some svc ∧
                Status svc ≠ UNHEALTHY ∧ Status svc ≠ TOMBSTONE))).

Definition unhealthy (c : Container) : error :=
  errors_New ("Unhealthy container: " +:+ ID c +:+ " failing task!").

(** How often an event occurs in a trace. *)
Definition occurrences (e : Event) (tr : list Event) : nat :=
  length (filter (fun x => x = e) tr).

(** How many events of a kind a trace has. *)
Definition count (kind : Event → bool) (tr : list Event) : nat :=
  length (filter (fun e => kind e = true) tr).

Definition is_create (e : Event) : bool :=
  match e with
  | EvCreateContainer => true
  | _ => false
  end.

Definition is_start (e : Event) : bool :=
  match e with
  | EvStartContainer _ => true
  | _ => false
  end.

Definition is_go (e : Event) : bool :=
  match e with
  | EvGo _ => true
  | _ => false
  end.

Definition is_delay (e : Event) : bool :=
  match e with
  | EvSleep _ | EvTick _ => true
  | _ => false
  end.

(** The state a kill is to report: Finished when the inspected exit code is
    0, Killed for any other exit code and when the inspection fails. *)
Definition kill_state (dk : Docker) (taskID : string) : mesos_TaskState :=
  match InspectContainer dk taskID with
  | inl container =>
      if decide (State_ExitCode container = 0) then TASK_FINISHED else TASK_KILLED
  | inr _ => TASK_KILLED
  end.

(** The Docker client with another answer to [CreateContainer]. *)
Definition with_created (created : Container + error) (dk : Docker) : Docker :=
  mkDocker created (StartContainer dk) (StopContainer dk) (InspectContainer dk).

(** ** Concrete worlds *)

Module Example.
Definition container : Container :=
  mkContainer "abc123456789d0e1f2a3b4c5d6e7f8091a2b3c4d5e6f708192a3b4c5d6e7f809" 0.

Definition taskInfo : TaskInfo :=
  mkTaskInfo "web" "web.4f2c1a" "/bin/web" (Some false).

Definition state (status : Z) : SidecarServices :=
  mkSidecarServices
    {[ "host-a" := mkServer {[ "abc123456789" := mkService status ]} ]}.

(** Sidecar answers every request; its state parses to [state status]. *)
Definition sidecar_up (status : Z) : PollWorld :=
  mkPollWorld (fun _ => (Some (mkResponse (inl "{}")), None))
              (fun _ => inl (state status))
              {[ "TASK_HOST" := "host-a" ]}.

(** Nothing listens on the Sidecar port: [Get] returns a nil response and
    an error. *)
Definition sidecar_down : PollWorld :=
  mkPollWorld
    (fun _ => (None, Some (foreign "net/http"
                 "dial tcp 127.0.0.1:7777: connect: connection refused")))
    (fun _ => inr (foreign "encoding/json" "unexpected end of JSON input"))
    {[ "TASK_HOST" := "host-a" ]}.

Definition driver : Driver := mkDriver (fun _ _ => None).

(** Docker creates and starts [container]; the task id names no container. *)
Definition docker : Docker :=
  mkDocker (inl container) (fun _ => None) (fun _ _ => None)
           (fun id => if decide (id = ID container) then inl container
                      else inr (foreign "docker" "No such container")).

(** Docker refuses to create the container. *)
Definition docker_create_fails : Docker :=
  with_created (inr (foreign "docker" "no such image")) docker.

(** Docker resolves the task id to the container, which ends with exit
    code 137 when it is stopped. *)
Definition docker_kill : Docker :=
  mkDocker (inl container) (fun _ => None) (fun _ _ => None)
           (fun _ => inl (mkContainer (ID container) 137)).

(** A kill request that arrives while the watch loop runs: [KillTask] logs
    and stops the container, the loop makes its pass, [KillTask] inspects
    and reports, then the goroutine waiting for the loop reports. *)
Definition kill : KillRequest :=
  mkKillRequest (TaskId taskInfo)
    ([true] ++ [false; false] ++ replicate 16 true ++ [false; false] ++
     [true; true; true]).

Definition listed : list APIContainers.t :=
  [APIContainers.mk "0f0e0d0c0b0a" "Up 3 hours";
   APIContainers.mk (ID container) "Exited (0) 2 seconds ago"].

(** A pass of the watch loop that finds the container listed and Sidecar
    reporting it with [status]. *)
Definition pass (status : Z) : IterWorld :=
  mkIterWorld (inl listed) (sidecar_up status).

(** A pass in which the listing omits the container. *)
Definition pass_gone : IterWorld :=
  mkIterWorld (inl [APIContainers.mk "0f0e0d0c0b0a" "Up 3 hours"]) (sidecar_up ALIVE).
End Example.


(** ** Further predicates and worlds *)

(** The status constant of main.go that stands for a Mesos state. *)
Definition status_of_state (s : mesos_TaskState) : Z :=
  match s with
  | TASK_RUNNING => TaskRunning
  | TASK_FINISHED => TaskFinished
  | TASK_FAILED => TaskFailed
  | TASK_KILLED => TaskKilled
  end.

(** Calls to the Docker client. *)
Definition is_docker (e : Event) : bool :=
  match e with
  | EvPullImage | EvCreateContainer | EvStartContainer _ | EvListContainers _
  | EvStopContainer _ _ | EvInspectContainer _ => true
  | _ => false
  end.

Definition is_http (e : Event) : bool :=
  match e with
  | EvHttpGet _ => true
  | _ => false
  end.

Definition is_list (e : Event) : bool :=
  match e with
  | EvListContainers _ => true
  | _ => false
  end.

Definition is_stop (e : Event) : bool :=
  match e with
  | EvDriverStop => true
  | _ => false
  end.

Definition is_pull (e : Event) : bool :=
  match e with
  | EvPullImage => true
  | _ => false
  end.

(** What a Sidecar poll may do: log, and request and read [SidecarUrl]. *)
Definition is_poll (e : Event) : bool :=
  match e with
  | EvLog _ _ | EvReadAll | EvBodyClose => true
  | EvHttpGet url => bool_decide (url = SidecarUrl)
  | _ => false
  end.

(** A pass of the watch loop that finds nothing wrong. *)
Definition healthy_pass (c : Container) (it : IterWorld) : Prop :=
  outcome (watchIteration c it) = Done None.

(** The level [handleOneStream] logs the lines of a stream at. *)
Definition sink_level (name : string) : Level :=
  if decide (name = "stdout") then Info else Error.

(** A channel nobody has closed or sends on. *)
Definition idle (ch : Chan) : Prop := closed ch = false ∧ senders ch = 0%nat.

Module Cases.
(** A container whose id is shorter than twelve characters. *)
Definition short_container : Container := mkContainer "abc123" 0.

Definition docker_short_id : Docker :=
  with_created (inl short_container) Example.docker.

(** A task info without the Docker section. *)
Definition taskInfo_no_docker : TaskInfo :=
  mkTaskInfo "web" "web.4f2c1a" "/bin/web" None.

Definition taskInfo_force_pull : TaskInfo :=
  mkTaskInfo "web" "web.4f2c1a" "/bin/web" (Some true).

(** A driver that cannot send status updates. *)
Definition driver_down : Driver :=
  mkDriver (fun _ _ => Some (foreign "mesos" "driver is not running")).

(** Docker fails to stop the container. *)
Definition docker_stop_fails : Docker :=
  mkDocker (inl Example.container) (fun _ => None)
           (fun _ _ => Some (foreign "docker" "cannot stop container"))
           (InspectContainer Example.docker_kill).

(** The Docker daemon does not answer the listing. *)
Definition pass_list_fails : IterWorld :=
  mkIterWorld (inr (foreign "docker" "cannot connect to the Docker daemon"))
              (Example.sidecar_up ALIVE).

(** Sidecar is unreachable during the pass. *)
Definition pass_sidecar_down : IterWorld :=
  mkIterWorld (inl Example.listed) Example.sidecar_down.

(** Sidecar reports the container unhealthy on the first four requests and
    cannot be read on the fifth. *)
Definition sidecar_flaky : PollWorld :=
  mkPollWorld
    (fun i => if decide (i = 4%nat)
              then (Some (mkResponse (inr (foreign "io" "unexpected EOF"))), None)
              else (Some (mkResponse (inl "{}")), None))
    (fun _ => inl (Example.state UNHEALTHY))
    {[ "TASK_HOST" := "host-a" ]}.

(** Sidecar answers every request with a body that cannot be read. *)
Definition sidecar_unreadable : PollWorld :=
  mkPollWorld
    (fun _ => (Some (mkResponse (inr (foreign "io" "unexpected EOF"))), None))
    (fun _ => inl (Example.state UNHEALTHY))
    {[ "TASK_HOST" := "host-a" ]}.

(** Sidecar answers three requests and is gone at the fourth. *)
Definition sidecar_dies : PollWorld :=
  mkPollWorld
    (fun i => if decide (i < 3)%nat
              then (Some (mkResponse (inl "{}")), None)
              else (None, Some (foreign "net/http" "connection refused")))
    (fun _ => inl (Example.state ALIVE))
    {[ "TASK_HOST" := "host-a" ]}.

(** TASK_HOST is not set. *)
Definition sidecar_no_host : PollWorld :=
  mkPollWorld (fun _ => (Some (mkResponse (inl "{}")), None))
              (fun _ => inl (Example.state UNHEALTHY))
              ∅.
End Cases.

(** * Properties *)

(** ** Runs *)

Lemma bind_Done {A B : Type} (t : list Event) (a : A) (k : A → Run B) :
  ((t, Done a) : Run A) ≫= k = (t ++ trace (k a), outcome (k a)).
Proof. unfold mbind, Run_bind, trace, outcome. by destruct (k a). Qed.

Lemma bind_Panic {A B : Type} (t : list Event) (msg : string) (k : A → Run B) :
  ((t, Panic msg) : Run A) ≫= k = (t, Panic msg).
Proof. reflexivity. Qed.

Lemma bind_emit {B : Type} (e : Event) (k : unit → Run B) :
  emit e ≫= k = (e :: trace (k tt), outcome (k tt)).
Proof. unfold emit. by rewrite bind_Done. Qed.

Lemma bind_mret {A B : Type} (a : A) (k : A → Run B) : mret a ≫= k = k a.
Proof. unfold mret, Run_ret. rewrite bind_Done. by destruct (k a). Qed.

Lemma run_eta {A : Type} (r : Run A) : r = (trace r, outcome r).
Proof. by destruct r. Qed.

(** ** Sidecar *)

Section sidecar.
Variable w : PollWorld.
Variable c : Container.

Lemma registry_cases (data : string) :
  registry_reports_dead w c data ∨ registry_fail_open w c data.
Proof.
  unfold registry_reports_dead, registry_fail_open.
  destruct (json_Unmarshal w data) as [services|e] eqn:Hj; [|right; left; eauto].
  destruct (Servers services !! os_Getenv w "TASK_HOST") as [server|] eqn:Hs;
    [|right; right; eauto].
  destruct (Services server !! String.substring 0 12 (ID c)) as [svc|] eqn:Hv;
    [|right; right; eauto 10].
  destruct (decide (Status svc = UNHEALTHY ∨ Status svc = TOMBSTONE)) as [Hd|Hd].
  - left. eauto 10.
  - right. right. exists services. split; [done|]. right. exists server.
    split; [done|]. right. exists svc. split; [done|]. tauto.
Qed.

Lemma registry_fail_open_not_dead (data : string) :
  registry_fail_open w c data → ¬ registry_reports_dead w c data.
Proof.
  intros Ho (services & server & svc & Hj & Hs & Hv & Hd).
  destruct Ho as [[e He]|(services' & Hj' & Ho)]; [congruence|].
  rewrite Hj in Hj'. injection Hj' as <-.
  destruct Ho as [Hn|(server' & Hs' & Ho)]; [congruence|].
  rewrite Hs in Hs'. injection Hs' as <-.
  destruct Ho as [Hn|(svc' & Hv' & Hu & Ht)]; [congruence|].
  rewrite Hv in Hv'. injection Hv' as <-. tauto.
Qed.

(** What [sidecarStatus] returns once the retry loop has left it a body. *)
Lemma sidecarStatus_after_fetch (tr : list Event) (data : string) :
  retryLoop w SidecarRetryCount 0 ("", None) = (tr, Done (data, None)) →
  (12 ≤ String.length (ID c))%nat →
  outcome (sidecarStatus w c) = Done
    match json_Unmarshal w data with
    | inr _ => None
    | inl services =>
        match Servers services !! os_Getenv w "TASK_HOST" with
        | None => None
        | Some server =>
            match Services server !! String.substring 0 12 (ID c) with
            | None => None
            | Some svc =>
                if decide (Status svc = UNHEALTHY ∨ Status svc = TOMBSTONE)
                then Some (unhealthy c) else None
            end
        end
    end.
Proof.
  intros Hloop Hlen. unfold sidecarStatus. rewrite Hloop, bind_Done. cbn [outcome snd].
  destruct (json_Unmarshal w data) as [services|e]; [|done].
  destruct (Servers services !! os_Getenv w "TASK_HOST") as [server|]; [|done].
  unfold slice_to. rewrite decide_True by done.
  rewrite bind_mret.
  destruct (Services server !! String.substring 0 12 (ID c)) as [svc|]; [|done].
  by destruct (decide (Status svc = UNHEALTHY ∨ Status svc = TOMBSTONE)).
Qed.

(** C1. Once a response body was obtained (the retry loop ends with a body
    and no error), [sidecarStatus] returns an error if and only if the body
    parses to a state that has the host named by TASK_HOST, has under it the
    first twelve characters of the container id, and gives that service the
    status unhealthy or tombstone.  When the body does not parse, the host
    or the container is absent, or the status is anything else, it returns
    nil. *)
Theorem sidecarStatus_error_iff_dead (tr : list Event) (data : string) :
  retryLoop w SidecarRetryCount 0 ("", None) = (tr, Done (data, None)) →
  (12 ≤ String.length (ID c))%nat →
  ∃ r : option error,
    outcome (sidecarStatus w c) = Done r ∧
    (is_Some r ↔ registry_reports_dead w c data) ∧
    (registry_reports_dead w c data → r = Some (unhealthy c)) ∧
    (registry_fail_open w c data → r = None).
Proof.
  intros Hloop Hlen.
  pose proof (sidecarStatus_after_fetch tr data Hloop Hlen) as Hout.
  eexists. split; [exact Hout|].
  assert (Hdead : registry_reports_dead w c data →
    match json_Unmarshal w data with
    | inr _ => None
    | inl services =>
        match Servers services !! os_Getenv w "TASK_HOST" with
        | None => None
        | Some server =>
            match Services server !! String.substring 0 12 (ID c) with
            | None => None
            | Some svc =>
                if decide (Status svc = UNHEALTHY ∨ Status svc = TOMBSTONE)
                then Some (unhealthy c) else None
            end
        end
    end = Some (unhealthy c)).
  { intros (services & server & svc & -> & -> & -> & Hd). by rewrite decide_True. }
  assert (Hopen : registry_fail_open w c data →
    match json_Unmarshal w data with
    | inr _ => None
    | inl services =>
        match Servers services !! os_Getenv w "TASK_HOST" with
        | None => None
        | Some server =>
            match Services server !! String.substring 0 12 (ID c) with
            | None => None
            | Some svc =>
                if decide (Status svc = UNHEALTHY ∨ Status svc = TOMBSTONE)
                then Some (unhealthy c) else None
            end
        end
    end = None).
  { intros [[e ->]|(services & -> & [->|(server & -> & [->|(svc & -> & Hu & Ht)])])];
      try done.
    rewrite decide_False; [done|tauto]. }
  split; [|split; assumption].
  split.
  - intros Hsome. destruct (registry_cases data) as [Hd|Ho]; [done|].
    rewrite (Hopen Ho) in Hsome. by destruct Hsome.
  - intros Hd. rewrite (Hdead Hd). by eexists.
Qed.
End sidecar.

(** A concrete poll: Sidecar is up and reports the container unhealthy. *)
Lemma sidecarStatus_error_iff_dead_witness :
  retryLoop (Example.sidecar_up UNHEALTHY) SidecarRetryCount 0 ("", None)
    = (concat (replicate 5 [EvHttpGet SidecarUrl; EvReadAll; EvBodyClose]),
       Done ("{}", None)) ∧
  (12 ≤ String.length (ID Example.container))%nat ∧
  ∃ r : option error,
    outcome (sidecarStatus (Example.sidecar_up UNHEALTHY) Example.container) = Done r ∧
    (is_Some r ↔
       registry_reports_dead (Example.sidecar_up UNHEALTHY) Example.container "{}") ∧
    (registry_reports_dead (Example.sidecar_up UNHEALTHY) Example.container "{}" →
       r = Some (unhealthy Example.container)) ∧
    (registry_fail_open (Example.sidecar_up UNHEALTHY) Example.container "{}" → r = None).
Proof.
  split; [reflexivity|]. split; [simpl; lia|].
  apply (sidecarStatus_error_iff_dead (Example.sidecar_up UNHEALTHY) Example.container
           (concat (replicate 5 [EvHttpGet SidecarUrl; EvReadAll; EvBodyClose])) "{}");
    [reflexivity | simpl; lia].
Defined.

(** ** The retry loop *)

Lemma trace_bind {A B : Type} (m : Run A) (k : A → Run B) :
  trace (m ≫= k) =
  trace m ++ match outcome m with Done a => trace (k a) | Panic _ => [] end.
Proof.
  destruct m as [t [a|msg]].
  - by rewrite bind_Done.
  - rewrite bind_Panic. cbn. by rewrite app_nil_r.
Qed.

Lemma outcome_bind {A B : Type} (m : Run A) (k : A → Run B) :
  outcome (m ≫= k) =
  match outcome m with Done a => outcome (k a) | Panic msg => Panic msg end.
Proof.
  destruct m as [t [a|msg]].
  - by rewrite bind_Done.
  - by rewrite bind_Panic.
Qed.

(** The [continue] changes nothing: both branches go on with the next pass. *)
Lemma retryLoop_S (w : PollWorld) (n i : nat) (st : string * option error) :
  retryLoop w (S n) i st = fetch w i ≫= retryLoop w n (S i).
Proof.
  cbn [retryLoop]. unfold mbind, Run_bind.
  destruct (fetch w i) as [t [[data [e|]]|msg]]; reflexivity.
Qed.

(** [fetch] on a nil response: the deferred [resp.Body.Close()] panics. *)
Lemma fetch_nil_response (w : PollWorld) (i : nat) (err : option error) :
  http_Get w i = (None, err) →
  fetch w i = ([EvHttpGet SidecarUrl],
               Panic "invalid memory address or nil pointer dereference").
Proof. intros H. unfold fetch. rewrite H. reflexivity. Qed.

(** [fetch] on a response: it returns, with the body or with the error. *)
Lemma fetch_response (w : PollWorld) (i : nat) (r : Response) (err : option error) :
  http_Get w i = (Some r, err) →
  ∃ t res, fetch w i = (EvHttpGet SidecarUrl :: t, Done res) ∧
           filter (fun e => is_delay e = true) t = [] ∧
           occurrences (EvHttpGet SidecarUrl) t = 0%nat ∧
           res.2 = match err with
                   | Some e => Some e
                   | None => match Body r with inl _ => None | inr e => Some e end
                   end.
Proof.
  intros H. unfold fetch. rewrite H.
  destruct err as [e|]; [by eexists _, _|].
  destruct (Body r) as [body|e]; by eexists _, _.
Qed.

Lemma fetch_no_delay (w : PollWorld) (i : nat) :
  filter (fun e => is_delay e = true) (trace (fetch w i)) = [].
Proof.
  unfold fetch. destruct (http_Get w i) as [[r|] [e|]]; try reflexivity.
  destruct (Body r); reflexivity.
Qed.

(** No pass of the retry loop waits: [SidecarRetryDelay] is not used. *)
Lemma retryLoop_no_delay (w : PollWorld) (n i : nat) (st : string * option error) :
  filter (fun e => is_delay e = true) (trace (retryLoop w n i st)) = [].
Proof.
  revert i st. induction n as [|n IH]; intros i st; [reflexivity|].
  rewrite retryLoop_S, trace_bind, filter_app, fetch_no_delay.
  destruct (outcome (fetch w i)); [apply IH | reflexivity].
Qed.

(** While Sidecar answers, every one of the [n] passes sends a request,
    whatever the earlier passes got, and the loop ends with what the last
    pass got. *)
Lemma retryLoop_all_passes (w : PollWorld) (n i : nat) (st : string * option error) :
  (∀ j, (i ≤ j < i + n)%nat → ∃ r, (http_Get w j).1 = Some r) →
  occurrences (EvHttpGet SidecarUrl) (trace (retryLoop w n i st)) = n ∧
  outcome (retryLoop w n i st) =
    match n with
    | O => Done st
    | S n' => outcome (fetch w (i + n'))
    end.
Proof.
  revert i st. induction n as [|n IH]; intros i st Hall; [done|].
  rewrite retryLoop_S, trace_bind, outcome_bind.
  destruct (Hall i ltac:(lia)) as [r Hr].
  destruct (http_Get w i) as [resp err] eqn:Hget. cbn in Hr. subst resp.
  destruct (fetch_response w i r err Hget) as (t & res & Hf & _ & Hocc & _).
  rewrite Hf. cbn [trace outcome fst snd].
  destruct (IH (S i) res) as [Hcount Hout].
  { intros j Hj. apply Hall. lia. }
  split.
  - unfold occurrences in *. rewrite filter_app, length_app.
    rewrite filter_cons_True by done. cbn [length]. rewrite Hocc, Hcount. lia.
  - rewrite Hout. destruct n as [|n'].
    + rewrite Nat.add_0_r, Hf. reflexivity.
    + by replace (S i + n')%nat with (i + S n')%nat by lia.
Qed.

(** When Sidecar answers every request and the last one cannot be read,
    [sidecarStatus] assumes the container healthy. *)
Lemma sidecarStatus_last_error_fail_open (w : PollWorld) (c : Container) :
  (∀ j, (j < SidecarRetryCount)%nat → ∃ r, (http_Get w j).1 = Some r) →
  (∃ e, (outcome (fetch w 4)) = Done e ∧ is_Some e.2) →
  sidecarStatus w c =
    (trace (retryLoop w SidecarRetryCount 0 ("", None)) ++
       [EvLog Error "Can't contact Sidecar! Assuming healthy..."], Done None).
Proof.
  intros Hall ([data err] & Hlast & [e He]). cbn in He. subst err.
  destruct (retryLoop_all_passes w SidecarRetryCount 0 ("", None)) as [_ Hout].
  { intros j Hj. apply Hall. lia. }
  cbn [SidecarRetryCount Nat.add] in Hout. rewrite Hlast in Hout.
  unfold sidecarStatus.
  rewrite (run_eta (retryLoop w SidecarRetryCount 0 ("", None))), Hout, bind_Done.
  reflexivity.
Qed.

(** A nil response on the first request ends [sidecarStatus] in a panic. *)
Lemma sidecarStatus_nil_response (w : PollWorld) (c : Container) (err : option error) :
  http_Get w 0 = (None, err) →
  sidecarStatus w c = ([EvHttpGet SidecarUrl],
                       Panic "invalid memory address or nil pointer dereference").
Proof.
  intros H. unfold sidecarStatus, SidecarRetryCount.
  rewrite retryLoop_S, (fetch_nil_response w 0 err H). reflexivity.
Qed.

(** C2. With Sidecar unreachable ([Get] returns a nil response and an error on
    every attempt), [sidecarStatus] does not log and return nil: the first
    [fetch] panics in its deferred [resp.Body.Close()]. *)
Theorem sidecarStatus_unreachable_panics :
  sidecarStatus Example.sidecar_down Example.container =
    ([EvHttpGet SidecarUrl], Panic "invalid memory address or nil pointer dereference").
Proof. apply (sidecarStatus_nil_response _ _ (Some (foreign "net/http"
         "dial tcp 127.0.0.1:7777: connect: connection refused"))). reflexivity. Qed.

(** C6. With Sidecar answering the first request, [sidecarStatus] still sends
    all five requests (the loop does not stop at the first success) and waits
    between none of them. *)
Theorem sidecarStatus_always_five_requests :
  outcome (fetch (Example.sidecar_up ALIVE) 0) = Done ("{}", None) ∧
  occurrences (EvHttpGet SidecarUrl)
    (trace (sidecarStatus (Example.sidecar_up ALIVE) Example.container)) = 5%nat ∧
  filter (fun e => is_delay e = true)
    (trace (sidecarStatus (Example.sidecar_up ALIVE) Example.container)) = [] ∧
  effects (trace (sidecarStatus (Example.sidecar_up ALIVE) Example.container)) =
    concat (replicate 5 [EvHttpGet SidecarUrl; EvReadAll; EvBodyClose]).
Proof. vm_compute. auto. Qed.

(** ** Traces *)

Lemma elem_of_effects (e : Event) (tr : list Event) :
  e ∈ effects tr ↔ e ∈ tr ∧ is_log e = false.
Proof. unfold effects. rewrite list_elem_of_filter. tauto. Qed.

(** Membership in a list that is written out. *)
Ltac in_list H :=
  simpl in H;
  repeat first
    [ apply elem_of_nil in H; destruct H
    | apply elem_of_cons in H; destruct H as [H|H] ].

Ltac list_has :=
  simpl; repeat first [ apply list_elem_of_here | apply list_elem_of_further ].

(** ** [KillTask] *)

Lemma KillTask_effects (drv : Driver) (dk : Docker) (taskID : string) :
  effects (trace (KillTask drv dk taskID)) =
    [EvStopContainer taskID KillTaskTimeout;
     EvInspectContainer taskID;
     EvSendStatusUpdate (Some (kill_state dk taskID)) taskID] ++
    match SendStatusUpdate drv (Some (kill_state dk taskID)) taskID with
    | None => [EvSleep (1 * time_Second); EvDriverStop]
    | Some _ => []
    end.
Proof.
  unfold KillTask, sendStatus, kill_state, effects.
  destruct (StopContainer dk taskID KillTaskTimeout);
    destruct (InspectContainer dk taskID) as [container|err]; simpl;
    try destruct (decide (State_ExitCode container = 0)); simpl;
    match goal with
    | |- context [SendStatusUpdate drv ?s taskID] =>
        destruct (SendStatusUpdate drv s taskID)
    end; reflexivity.
Qed.

Lemma KillTask_outcome (drv : Driver) (dk : Docker) (taskID : string) :
  outcome (KillTask drv dk taskID) =
    match SendStatusUpdate drv (Some (kill_state dk taskID)) taskID with
    | None => Done tt
    | Some err => Panic (error_Error err)
    end.
Proof.
  unfold KillTask, sendStatus, kill_state.
  destruct (StopContainer dk taskID KillTaskTimeout);
    destruct (InspectContainer dk taskID) as [container|err]; simpl;
    try destruct (decide (State_ExitCode container = 0)); simpl;
    match goal with
    | |- context [SendStatusUpdate drv ?s taskID] =>
        destruct (SendStatusUpdate drv s taskID)
    end; reflexivity.
Qed.

(** C4. Whatever [StopContainer] and [InspectContainer] answer, [KillTask]
    stops the container with the timeout of five seconds, inspects it, and
    reports Finished when the inspection gives exit code 0 and Killed for any
    other exit code or a failed inspection; once the driver has taken the
    report it waits one second and stops the driver, and returns. *)
Theorem KillTask_reports_and_exits (drv : Driver) (dk : Docker) (taskID : string) :
  KillTaskTimeout = 5 ∧
  (kill_state dk taskID = TASK_FINISHED ↔
     ∃ container, InspectContainer dk taskID = inl container ∧
                  State_ExitCode container = 0) ∧
  (kill_state dk taskID = TASK_KILLED ↔
     (∃ container, InspectContainer dk taskID = inl container ∧
                   State_ExitCode container ≠ 0) ∨
     (∃ err, InspectContainer dk taskID = inr err)) ∧
  effects (trace (KillTask drv dk taskID)) =
    [EvStopContainer taskID KillTaskTimeout;
     EvInspectContainer taskID;
     EvSendStatusUpdate (Some (kill_state dk taskID)) taskID] ++
    match SendStatusUpdate drv (Some (kill_state dk taskID)) taskID with
    | None => [EvSleep (1 * time_Second); EvDriverStop]
    | Some _ => []
    end ∧
  outcome (KillTask drv dk taskID) =
    match SendStatusUpdate drv (Some (kill_state dk taskID)) taskID with
    | None => Done tt
    | Some err => Panic (error_Error err)
    end.
Proof.
  split; [reflexivity|].
  split; [|split; [|split; [apply KillTask_effects | apply KillTask_outcome]]].
  - unfold kill_state. destruct (InspectContainer dk taskID) as [container|err].
    + destruct (decide (State_ExitCode container = 0)); split; try done.
      * eauto.
      * intros (container' & Heq & Hz). congruence.
    + split; [done|]. intros (container' & Heq & _). done.
  - unfold kill_state. destruct (InspectContainer dk taskID) as [container|err].
    + destruct (decide (State_ExitCode container = 0)); split; try done.
      * intros [(container' & Heq & Hz)|[err Heq]]; congruence.
      * eauto.
    + split; eauto.
Qed.

(** C10. [KillTask] passes the Mesos task id, and nothing else, to
    [StopContainer] and [InspectContainer]; its run does not depend on the
    container that [CreateContainer] returned at launch; so it stops or
    inspects a given container only if the task id is that container's id. *)
Theorem KillTask_uses_task_id (drv : Driver) (dk : Docker) (taskID : string) :
  EvStopContainer taskID KillTaskTimeout ∈ trace (KillTask drv dk taskID) ∧
  EvInspectContainer taskID ∈ trace (KillTask drv dk taskID) ∧
  (∀ id t, EvStopContainer id t ∈ trace (KillTask drv dk taskID) → id = taskID) ∧
  (∀ id, EvInspectContainer id ∈ trace (KillTask drv dk taskID) → id = taskID) ∧
  (∀ created, KillTask drv (with_created created dk) taskID = KillTask drv dk taskID) ∧
  (∀ launched : Container,
     EvStopContainer (ID launched) KillTaskTimeout ∈ trace (KillTask drv dk taskID) ∨
     EvInspectContainer (ID launched) ∈ trace (KillTask drv dk taskID) →
     taskID = ID launched).
Proof.
  pose proof (KillTask_effects drv dk taskID) as Heff.
  assert (Hin : ∀ e, is_log e = false → e ∈ trace (KillTask drv dk taskID) →
            e = EvStopContainer taskID KillTaskTimeout ∨
            e = EvInspectContainer taskID ∨
            e = EvSendStatusUpdate (Some (kill_state dk taskID)) taskID ∨
            e = EvSleep (1 * time_Second) ∨ e = EvDriverStop).
  { intros e Hlog He.
    assert (He' : e ∈ effects (trace (KillTask drv dk taskID)))
      by (apply elem_of_effects; done).
    rewrite Heff in He'.
    destruct (SendStatusUpdate drv (Some (kill_state dk taskID)) taskID);
      in_list He'; auto. }
  assert (Hstop : ∀ id t, EvStopContainer id t ∈ trace (KillTask drv dk taskID) →
            id = taskID).
  { intros id t He.
    destruct (Hin (EvStopContainer id t) eq_refl He) as [?|[?|[?|[?|?]]]]; congruence. }
  assert (Hinsp : ∀ id, EvInspectContainer id ∈ trace (KillTask drv dk taskID) →
            id = taskID).
  { intros id He.
    destruct (Hin (EvInspectContainer id) eq_refl He) as [?|[?|[?|[?|?]]]]; congruence. }
  split; [|split; [|split; [exact Hstop|split; [exact Hinsp|split]]]].
  - apply (elem_of_effects _ (trace (KillTask drv dk taskID))). rewrite Heff. list_has.
  - apply (elem_of_effects _ (trace (KillTask drv dk taskID))). rewrite Heff. list_has.
  - intros created. reflexivity.
  - intros launched [He|He]; symmetry; eauto.
Qed.

(** ** [LaunchTask] *)

(** The cases of [LaunchTask], by the answers it gets. *)
Ltac launch_cases drv dk ti :=
  unfold lifecycle, LaunchTask, failTask, sendStatus, slice_to; simpl;
  destruct (SendStatusUpdate drv (Some TASK_RUNNING) (TaskId ti)) eqn:?; simpl;
  [| destruct (ForcePullImage ti) as [[|]|] eqn:?; simpl;
     try (destruct (CreateContainer dk) as [?container|?err] eqn:?; simpl;
          [ destruct (decide (12 ≤ String.length (ID container))%nat); simpl;
            [ destruct (StartContainer dk (ID container)) eqn:?; simpl;
              [ destruct (SendStatusUpdate drv (Some TASK_FAILED) (TaskId ti)) eqn:?;
                simpl |]
            |]
          | destruct (SendStatusUpdate drv (Some TASK_FAILED) (TaskId ti)) eqn:?;
            simpl ]) ].

(** C7. In a launch where [CreateContainer] is called and returns an error,
    or [StartContainer] is called and returns an error, Failed is reported
    (and is the only terminal report), the create call is made once and the
    start call at most once, no goroutine is started and no container is
    handed on to the watch loop: the life of the task is the trace of
    [LaunchTask] alone. *)
Theorem LaunchTask_create_or_start_fails (drv : Driver) (dk : Docker) (ti : TaskInfo) :
  (EvCreateContainer ∈ trace (LaunchTask drv dk ti) ∧
     ∃ err, CreateContainer dk = inr err) ∨
  (∃ container err,
     CreateContainer dk = inl container ∧
     EvStartContainer (ID container) ∈ trace (LaunchTask drv dk ti) ∧
     StartContainer dk (ID container) = Some err) →
  EvSendStatusUpdate (Some TASK_FAILED) (TaskId ti) ∈ trace (LaunchTask drv dk ti) ∧
  terminal_reports (trace (LaunchTask drv dk ti)) = [TASK_FAILED] ∧
  count is_create (trace (LaunchTask drv dk ti)) = 1%nat ∧
  (count is_start (trace (LaunchTask drv dk ti)) ≤ 1)%nat ∧
  count is_go (trace (LaunchTask drv dk ti)) = 0%nat ∧
  (∀ container, outcome (LaunchTask drv dk ti) ≠ Done (Some container)) ∧
  (∀ its kill,
     lifecycle drv dk ti its kill = until_exit (trace (LaunchTask drv dk ti))).
Proof.
  launch_cases drv dk ti.
  all: intros [[Hin [e' He']]|(c' & e' & Hc & Hin & Hst)]; simplify_eq; try congruence.
  all: try (in_list Hin; discriminate).
  all: split; [list_has|].
  all: split; [reflexivity|].
  all: split; [reflexivity|].
  all: split; [vm_compute; lia|].
  all: split; [reflexivity|split; [by intros ?|done]].
Qed.

Lemma LaunchTask_create_or_start_fails_witness :
  ((EvCreateContainer ∈
      trace (LaunchTask Example.driver Example.docker_create_fails Example.taskInfo) ∧
    ∃ err, CreateContainer Example.docker_create_fails = inr err) ∨
   (∃ container err,
      CreateContainer Example.docker_create_fails = inl container ∧
      EvStartContainer (ID container) ∈
        trace (LaunchTask Example.driver Example.docker_create_fails Example.taskInfo) ∧
      StartContainer Example.docker_create_fails (ID container) = Some err)) ∧
  terminal_reports
    (trace (LaunchTask Example.driver Example.docker_create_fails Example.taskInfo))
    = [TASK_FAILED].
Proof.
  assert (H : EvCreateContainer ∈
      trace (LaunchTask Example.driver Example.docker_create_fails Example.taskInfo) ∧
    ∃ err, CreateContainer Example.docker_create_fails = inr err).
  { split; [vm_compute; list_has | eexists; reflexivity]. }
  split; [left; exact H|].
  apply (LaunchTask_create_or_start_fails
           Example.driver Example.docker_create_fails Example.taskInfo).
  left; exact H.
Defined.

Lemma sendStatus_trace_head (drv : Driver) (taskId : string) :
  ∃ t, trace (sendStatus drv TaskRunning taskId) =
       EvSendStatusUpdate (Some TASK_RUNNING) taskId :: t.
Proof.
  unfold sendStatus. simpl.
  destruct (SendStatusUpdate drv (Some TASK_RUNNING) taskId); simpl; by eexists.
Qed.

(** Every launch begins with its two log lines, the dump of the task info and
    the Running report. *)
Lemma LaunchTask_prefix (drv : Driver) (dk : Docker) (ti : TaskInfo) :
  ∃ rest, trace (LaunchTask drv dk ti) =
    [EvLog Info "Launching task %s with command '%s'";
     EvLog Info "Task ID ";
     EvWriteFile "/tmp/taskinfo.json";
     EvSendStatusUpdate (Some TASK_RUNNING) (TaskId ti)] ++ rest.
Proof.
  unfold LaunchTask. rewrite !bind_emit. cbn [trace fst outcome snd].
  rewrite trace_bind.
  destruct (sendStatus_trace_head drv (TaskId ti)) as [t ->].
  eexists. reflexivity.
Qed.

(** C8. In the trace of every launch, a [CreateContainer] call and a forced
    image pull come after the Running report: whatever precedes them contains
    the status update Running for the task. *)
Theorem LaunchTask_running_before_create (drv : Driver) (dk : Docker) (ti : TaskInfo)
    (pre post : list Event) (e : Event) :
  trace (LaunchTask drv dk ti) = pre ++ e :: post →
  e = EvCreateContainer ∨ e = EvPullImage →
  EvSendStatusUpdate (Some TASK_RUNNING) (TaskId ti) ∈ pre.
Proof.
  intros Htr He. destruct (LaunchTask_prefix drv dk ti) as [rest Hpre].
  rewrite Hpre in Htr.
  destruct pre as [|p0 [|p1 [|p2 [|p3 pre]]]]; simpl in Htr; simplify_eq;
    try (destruct He; discriminate).
  list_has.
Qed.

Lemma LaunchTask_running_before_create_witness :
  trace (LaunchTask Example.driver Example.docker_create_fails Example.taskInfo) =
    [EvLog Info "Launching task %s with command '%s'";
     EvLog Info "Task ID ";
     EvWriteFile "/tmp/taskinfo.json";
     EvSendStatusUpdate (Some TASK_RUNNING) (TaskId Example.taskInfo)] ++
    EvCreateContainer ::
    [EvLog Error "Failed to create Docker container: %s";
     EvSendStatusUpdate (Some TASK_FAILED) (TaskId Example.taskInfo);
     EvSleep (1 * time_Second);
     EvDriverStop] ∧
  (EvCreateContainer = EvCreateContainer ∨ EvCreateContainer = EvPullImage) ∧
  EvSendStatusUpdate (Some TASK_RUNNING) (TaskId Example.taskInfo) ∈
    [EvLog Info "Launching task %s with command '%s'";
     EvLog Info "Task ID ";
     EvWriteFile "/tmp/taskinfo.json";
     EvSendStatusUpdate (Some TASK_RUNNING) (TaskId Example.taskInfo)].
Proof.
  split; [reflexivity|]. split; [left; reflexivity|].
  apply (LaunchTask_running_before_create
           Example.driver Example.docker_create_fails Example.taskInfo _
           [EvLog Error "Failed to create Docker container: %s";
            EvSendStatusUpdate (Some TASK_FAILED) (TaskId Example.taskInfo);
            EvSleep (1 * time_Second);
            EvDriverStop] EvCreateContainer);
    [reflexivity | left; reflexivity].
Defined.

(** ** The watch loop *)

Lemma find_entry_acc (c : Container) (entries : list APIContainers.t) (acc : bool) :
  foldl (fun ok entry =>
           if decide (APIContainers.ID entry = ID c) then true else ok)
        acc entries = true ↔
  acc = true ∨ ID c ∈ APIContainers.ID <$> entries.
Proof.
  revert acc. induction entries as [|entry entries IH]; intros acc; simpl.
  - rewrite elem_of_nil. tauto.
  - rewrite IH, elem_of_cons. destruct (decide (APIContainers.ID entry = ID c)) as [Heq|Hne].
    + split; [intros _; right; left; done | auto].
    + split; [tauto|]. intros [?|[?|?]]; [auto | congruence | auto].
Qed.

Lemma find_entry_listed (c : Container) (entries : list APIContainers.t) :
  find_entry c entries = true ↔ ID c ∈ APIContainers.ID <$> entries.
Proof.
  unfold find_entry. rewrite find_entry_acc. split; [intros [?|?]; done|auto].
Qed.

Lemma unhealthy_not_notRunning (c : Container) : unhealthy c ≠ notRunning c.
Proof. unfold unhealthy, notRunning. simpl. discriminate. Qed.

(** The only error [sidecarStatus] returns is the unhealthy one. *)
Lemma sidecarStatus_error (w : PollWorld) (c : Container) (e : error) :
  outcome (sidecarStatus w c) = Done (Some e) → e = unhealthy c.
Proof.
  unfold sidecarStatus. rewrite outcome_bind.
  destruct (outcome (retryLoop w SidecarRetryCount 0 ("", None)))
    as [[data [err|]]|msg]; [done| |done].
  destruct (json_Unmarshal w data) as [services|err]; [|done].
  destruct (Servers services !! os_Getenv w "TASK_HOST") as [server|]; [|done].
  rewrite outcome_bind. unfold slice_to.
  destruct (decide (12 ≤ String.length (ID c))%nat); [|done]. simpl.
  destruct (Services server !! String.substring 0 12 (ID c)) as [svc|]; [|done].
  destruct (decide (Status svc = UNHEALTHY ∨ Status svc = TOMBSTONE)); [|done].
  simpl. intros [= <-]. reflexivity.
Qed.

Lemma watchIteration_listing (c : Container) (it : IterWorld)
    (entries : list APIContainers.t) :
  ListContainers it = inl entries →
  watchIteration c it =
    if find_entry c entries
    then ([EvListContainers true] ++ trace (sidecarStatus (poll it) c),
          outcome (sidecarStatus (poll it) c))
    else ([EvListContainers true], Done (Some (notRunning c))).
Proof.
  intros Hl. unfold watchIteration. rewrite bind_emit, Hl.
  destruct (find_entry c entries); simpl; [|reflexivity].
  rewrite trace_bind, outcome_bind.
  destruct (sidecarStatus (poll it) c) as [t [[e|]|msg]]; simpl;
    by rewrite ?app_nil_r.
Qed.

(** A pass returns the "not running" error exactly when the listing it got
    does not have the container's id. *)
Lemma watchIteration_not_running (c : Container) (it : IterWorld)
    (entries : list APIContainers.t) :
  ListContainers it = inl entries →
  outcome (watchIteration c it) = Done (Some (notRunning c)) ↔
  ID c ∉ APIContainers.ID <$> entries.
Proof.
  intros Hl. rewrite (watchIteration_listing c it entries Hl).
  rewrite <- find_entry_listed.
  destruct (find_entry c entries) eqn:Hf; simpl.
  - split; [|done]. intros Hs. apply sidecarStatus_error in Hs.
    symmetry in Hs. by apply unhealthy_not_notRunning in Hs.
  - split; [done|reflexivity].
Qed.

(** The loop stops at the first pass that returns an error; later passes do
    not run. *)
Lemma looper_Loop_stops (interval : Z) (fn : IterWorld → Run (option error))
    (pre post : list IterWorld) (it : IterWorld) (e : error) :
  Forall (fun it' => outcome (fn it') = Done None) pre →
  outcome (fn it) = Done (Some e) →
  looper_Loop interval fn (pre ++ it :: post) = looper_Loop interval fn (pre ++ [it]) ∧
  outcome (looper_Loop interval fn (pre ++ it :: post)) = Done (Stopped (Some e)).
Proof.
  intros Hpre Hit. induction Hpre as [|it' pre Hit' Hpre IH]; simpl.
  - rewrite (run_eta (fn it)), Hit, !bind_Done. simpl. done.
  - rewrite (run_eta (fn it')), Hit', !bind_Done. simpl.
    destruct IH as [<- IH].
    destruct (looper_Loop interval fn (pre ++ it :: post)) as [t r].
    simpl in IH. subst r. done.
Qed.

Lemma terminal_reports_app (t1 t2 : list Event) :
  terminal_reports (t1 ++ t2) = terminal_reports t1 ++ terminal_reports t2.
Proof.
  induction t1 as [|e t1 IH]; [reflexivity|].
  destruct e as [| |[s|]| | | | | | | | | | | | | |]; simpl; try apply IH.
  destruct (is_terminal s); simpl; by rewrite IH.
Qed.

(** Nothing the watch loop does is a status report. *)
Lemma fetch_no_report (w : PollWorld) (i : nat) :
  terminal_reports (trace (fetch w i)) = [].
Proof.
  unfold fetch. destruct (http_Get w i) as [[r|] [e|]]; try reflexivity.
  destruct (Body r); reflexivity.
Qed.

Lemma retryLoop_no_report (w : PollWorld) (n i : nat) (st : string * option error) :
  terminal_reports (trace (retryLoop w n i st)) = [].
Proof.
  revert i st. induction n as [|n IH]; intros i st; [reflexivity|].
  rewrite retryLoop_S, trace_bind, terminal_reports_app, fetch_no_report.
  destruct (outcome (fetch w i)); [apply IH | reflexivity].
Qed.

Lemma sidecarStatus_no_report (w : PollWorld) (c : Container) :
  terminal_reports (trace (sidecarStatus w c)) = [].
Proof.
  unfold sidecarStatus.
  rewrite trace_bind, terminal_reports_app, retryLoop_no_report.
  destruct (outcome (retryLoop w SidecarRetryCount 0 ("", None)))
    as [[data [err|]]|msg]; [reflexivity| |reflexivity].
  destruct (json_Unmarshal w data) as [services|err]; [|reflexivity].
  destruct (Servers services !! os_Getenv w "TASK_HOST") as [server|]; [|reflexivity].
  unfold slice_to.
  destruct (decide (12 ≤ String.length (ID c))%nat); [|reflexivity].
  rewrite bind_mret.
  destruct (Services server !! String.substring 0 12 (ID c)) as [svc|]; [|reflexivity].
  destruct (decide (Status svc = UNHEALTHY ∨ Status svc = TOMBSTONE)); reflexivity.
Qed.

Lemma watchIteration_no_report (c : Container) (it : IterWorld) :
  terminal_reports (trace (watchIteration c it)) = [].
Proof.
  destruct (ListContainers it) as [entries|err] eqn:Hl.
  - rewrite (watchIteration_listing c it entries Hl).
    destruct (find_entry c entries); [|reflexivity].
    simpl. apply sidecarStatus_no_report.
  - unfold watchIteration. rewrite Hl. reflexivity.
Qed.

Lemma watchContainer_no_report (c : Container) (its : list IterWorld) :
  terminal_reports (trace (watchContainer c its)) = [].
Proof.
  unfold watchContainer. rewrite bind_emit. cbn [trace fst terminal_reports].
  induction its as [|it its IH]; [reflexivity|].
  cbn [looper_Loop].
  rewrite trace_bind, terminal_reports_app, watchIteration_no_report.
  destruct (outcome (watchIteration c it)) as [[e|]|msg]; try reflexivity.
  rewrite bind_emit. cbn [trace fst terminal_reports app]. apply IH.
Qed.

(** C5. In a pass of the watch loop that got a listing (asked with all=true),
    the "not running" error is returned if and only if the container's id is
    not among the listed ids; an entry with the id passes whatever its status
    says.  When the id is missing, the loop stops with that error (later
    passes do not run) and the task is reported Failed. *)
Theorem watch_not_running_iff_unlisted (drv : Driver) (ti : TaskInfo) (c : Container)
    (pre post : list IterWorld) (it : IterWorld) (entries : list APIContainers.t) :
  ListContainers it = inl entries →
  Forall (fun it' => outcome (watchIteration c it') = Done None) pre →
  (12 ≤ String.length (ID c))%nat →
  EvListContainers true ∈ trace (watchIteration c it) ∧
  (outcome (watchIteration c it) = Done (Some (notRunning c)) ↔
     ID c ∉ APIContainers.ID <$> entries) ∧
  (∀ status, APIContainers.mk (ID c) status ∈ entries →
     outcome (watchIteration c it) ≠ Done (Some (notRunning c))) ∧
  (ID c ∉ APIContainers.ID <$> entries →
     outcome (watchContainer c (pre ++ it :: post))
       = Done (Stopped (Some (notRunning c))) ∧
     monitor drv ti c (pre ++ it :: post) = monitor drv ti c (pre ++ [it]) ∧
     terminal_reports (trace (monitor drv ti c (pre ++ it :: post))) = [TASK_FAILED]).
Proof.
  intros Hl Hpre Hlen.
  pose proof (watchIteration_not_running c it entries Hl) as Hiff.
  split; [|split; [exact Hiff|split]].
  - rewrite (watchIteration_listing c it entries Hl).
    destruct (find_entry c entries); list_has.
  - intros status Hin Hout. apply Hiff in Hout. apply Hout.
    apply list_elem_of_fmap. by exists (APIContainers.mk (ID c) status).
  - intros Hgone. apply Hiff in Hgone.
    destruct (looper_Loop_stops (3 * time_Second) (watchIteration c) pre post it
                (notRunning c) Hpre Hgone) as [Heq Hout].
    assert (Hw : outcome (watchContainer c (pre ++ it :: post))
                 = Done (Stopped (Some (notRunning c)))).
    { unfold watchContainer. rewrite bind_emit. exact Hout. }
    split; [exact Hw|]. split.
    + unfold monitor, watchContainer. by rewrite Heq.
    + unfold monitor. rewrite trace_bind, terminal_reports_app, Hw.
      rewrite watchContainer_no_report.
      unfold awaitLooper, slice_to. rewrite decide_True by done.
      rewrite bind_mret, bind_emit. unfold failTask, sendStatus. simpl.
      destruct (SendStatusUpdate drv (Some TASK_FAILED) (TaskId ti)); reflexivity.
Qed.

Lemma watch_not_running_iff_unlisted_witness :
  ListContainers Example.pass_gone
    = inl [APIContainers.mk "0f0e0d0c0b0a" "Up 3 hours"] ∧
  Forall (fun it' => outcome (watchIteration Example.container it') = Done None)
         [Example.pass ALIVE] ∧
  (12 ≤ String.length (ID Example.container))%nat ∧
  terminal_reports
    (trace (monitor Example.driver Example.taskInfo Example.container
              ([Example.pass ALIVE] ++ Example.pass_gone :: [Example.pass ALIVE])))
    = [TASK_FAILED].
Proof.
  assert (H1 : ListContainers Example.pass_gone
    = inl [APIContainers.mk "0f0e0d0c0b0a" "Up 3 hours"]) by reflexivity.
  assert (H2 : Forall
    (fun it' => outcome (watchIteration Example.container it') = Done None)
    [Example.pass ALIVE]).
  { apply Forall_cons; split; [reflexivity | apply Forall_nil; exact I]. }
  assert (H3 : (12 ≤ String.length (ID Example.container))%nat) by (simpl; lia).
  split; [exact H1|]. split; [exact H2|]. split; [exact H3|].
  apply (watch_not_running_iff_unlisted Example.driver Example.taskInfo
           Example.container [Example.pass ALIVE] [Example.pass ALIVE]
           Example.pass_gone [APIContainers.mk "0f0e0d0c0b0a" "Up 3 hours"] H1 H2 H3).
  vm_compute. intros H. in_list H; discriminate.
Defined.

(** ** The life of a task *)

(** A container handed to the goroutines has an id of twelve characters or
    more: [LaunchTask] has sliced it already. *)
Lemma LaunchTask_container_id (drv : Driver) (dk : Docker) (ti : TaskInfo)
    (c : Container) :
  outcome (LaunchTask drv dk ti) = Done (Some c) → (12 ≤ String.length (ID c))%nat.
Proof. launch_cases drv dk ti; intros; simplify_eq; done. Qed.

(** [LaunchTask] itself reports no terminal state when it starts the
    goroutines, and at most one otherwise. *)
Lemma LaunchTask_reports (drv : Driver) (dk : Docker) (ti : TaskInfo) :
  match outcome (LaunchTask drv dk ti) with
  | Done (Some _) => terminal_reports (trace (LaunchTask drv dk ti)) = []
  | _ => (length (terminal_reports (trace (LaunchTask drv dk ti))) ≤ 1)%nat
  end.
Proof. launch_cases drv dk ti; simpl; first [reflexivity | lia]. Qed.

Lemma awaitLooper_reports (drv : Driver) (ti : TaskInfo) (c : Container)
    (r : LoopResult) :
  (length (terminal_reports (trace (awaitLooper drv ti c r))) ≤ 1)%nat.
Proof.
  unfold awaitLooper, slice_to, failTask, finishTask, sendStatus.
  destruct (decide (12 ≤ String.length (ID c))%nat); [|simpl; lia].
  destruct r as [|[e|]]; simpl; [lia| |].
  - destruct (SendStatusUpdate drv (Some TASK_FAILED) (TaskId ti)); simpl; lia.
  - destruct (SendStatusUpdate drv (Some TASK_FINISHED) (TaskId ti)); simpl; lia.
Qed.

Lemma monitor_reports (drv : Driver) (ti : TaskInfo) (c : Container)
    (its : list IterWorld) :
  (length (terminal_reports (trace (monitor drv ti c its))) ≤ 1)%nat.
Proof.
  unfold monitor. rewrite trace_bind, terminal_reports_app, watchContainer_no_report.
  destruct (outcome (watchContainer c its)); [apply awaitLooper_reports | simpl; lia].
Qed.

Lemma until_exit_prefix (tr : list Event) : ∃ rest, tr = until_exit tr ++ rest.
Proof.
  induction tr as [|e tr [rest IH]]; [by exists []|].
  destruct e; simpl; try (exists rest; by rewrite <- IH).
  by exists tr.
Qed.

Lemma until_exit_reports (tr : list Event) :
  (length (terminal_reports (until_exit tr)) ≤ length (terminal_reports tr))%nat.
Proof.
  destruct (until_exit_prefix tr) as [rest Hrest].
  rewrite Hrest at 2. rewrite terminal_reports_app, length_app. lia.
Qed.

(** Without a kill request a task reports at most one terminal state. *)
Lemma lifecycle_without_kill (drv : Driver) (dk : Docker) (ti : TaskInfo)
    (its : list IterWorld) :
  (length (terminal_reports (lifecycle drv dk ti its None)) ≤ 1)%nat.
Proof.
  pose proof (LaunchTask_reports drv dk ti) as Hl. unfold lifecycle.
  destruct (LaunchTask drv dk ti) as [t0 [[c|]|msg]]; simpl in Hl.
  - etrans; [apply until_exit_reports|].
    rewrite terminal_reports_app, Hl. apply monitor_reports.
  - etrans; [apply until_exit_reports|]. exact Hl.
  - etrans; [apply until_exit_reports|]. exact Hl.
Qed.

(** [KillTask] on its own reports one terminal state. *)
Lemma KillTask_reports_once (drv : Driver) (dk : Docker) (taskID : string) :
  terminal_reports (trace (KillTask drv dk taskID)) = [kill_state dk taskID].
Proof.
  unfold KillTask, sendStatus, kill_state.
  destruct (StopContainer dk taskID KillTaskTimeout);
    destruct (InspectContainer dk taskID) as [container|err]; simpl;
    try destruct (decide (State_ExitCode container = 0)); simpl;
    match goal with
    | |- context [SendStatusUpdate drv ?s taskID] =>
        destruct (SendStatusUpdate drv s taskID)
    end; reflexivity.
Qed.

(** C3. A kill request that arrives while the watch loop runs gives the task
    two terminal reports: [KillTask] reports Killed, and the goroutine waiting
    for the loop, which nothing has stopped, reports Failed after it, both
    before the driver is stopped. *)
Theorem lifecycle_kill_race_two_reports :
  terminal_reports
    (lifecycle Example.driver Example.docker_kill Example.taskInfo
       [Example.pass TOMBSTONE] (Some Example.kill))
    = [TASK_KILLED; TASK_FAILED] ∧
  count (fun e => bool_decide (e = EvDriverStop))
    (lifecycle Example.driver Example.docker_kill Example.taskInfo
       [Example.pass TOMBSTONE] (Some Example.kill)) = 1%nat ∧
  last (lifecycle Example.driver Example.docker_kill Example.taskInfo
          [Example.pass TOMBSTONE] (Some Example.kill)) = Some EvDriverStop.
Proof. vm_compute. auto. Qed.

(** ** Log relay *)

Lemma forwarded_app (p : Pump) (out : list Event) :
  filter (fun e => is_syslog e = true) (emitted p ++ out) =
  forwarded p ++ filter (fun e => is_syslog e = true) out.
Proof. unfold forwarded. apply filter_app. Qed.

(** A pass of a pump whose stream name is neither "stdout" nor "stderr":
    it returns, forwards nothing and leaves the channel alone. *)
Lemma pump_step_unknown (p : Pump) (ch : Chan) :
  stream_name p ≠ "stdout" → stream_name p ≠ "stderr" →
  (pump_step p ch).2 = ch ∧
  stream_name (pump_step p ch).1 = stream_name p ∧
  forwarded (pump_step p ch).1 = forwarded p ∧
  returned (pump_step p ch).1 = true.
Proof.
  intros Hout Herr. unfold pump_step.
  destruct (returned p) eqn:Hret; [done|].
  destruct (scanner_lines p) as [|text rest].
  - cbn [fst snd stream_name returned]. unfold forwarded at 1. cbn [emitted].
    rewrite forwarded_app. destruct (scanner_Err p); simpl; by rewrite app_nil_r.
  - rewrite decide_False by done. rewrite decide_False by done.
    cbn [fst snd stream_name returned]. unfold forwarded at 1. cbn [emitted].
    rewrite <- app_assoc, forwarded_app. simpl. by rewrite app_nil_r.
Qed.

(** Every pump returns once its scanner has run dry, whatever its name. *)
Lemma pump_run_returns (fuel : nat) (p : Pump) (ch : Chan) :
  (length (scanner_lines p) < fuel)%nat →
  returned (pump_run fuel p ch).1 = true.
Proof.
  revert p ch. induction fuel as [|fuel IH]; intros p ch Hfuel; [lia|].
  cbn [pump_run].
  destruct (pump_step p ch) as [p' ch'] eqn:Hstep.
  destruct (returned p') eqn:Hret; [done|].
  apply IH.
  unfold pump_step in Hstep.
  destruct (returned p) eqn:Hp; [simplify_eq; congruence|].
  destruct (scanner_lines p) as [|text rest] eqn:Hlines; [by simplify_eq|].
  simpl in Hfuel.
  repeat case_decide; try destruct (try_recv ch); simplify_eq; simpl in *; lia.
Qed.

Lemma handleOneStream_returns (ch : Chan) (name : string) (lines : list string)
    (err : option error) :
  returned (handleOneStream ch name lines err).1 = true.
Proof. apply pump_run_returns. simpl. lia. Qed.

Lemma handleOneStream_unknown (ch : Chan) (name : string) (lines : list string)
    (err : option error) :
  name ≠ "stdout" → name ≠ "stderr" →
  handleOneStream ch name lines err = pump_step (start_pump name lines err) ch.
Proof.
  intros Hout Herr. unfold handleOneStream. cbn [pump_run].
  destruct (pump_step_unknown (start_pump name lines err) ch Hout Herr)
    as (_ & _ & _ & Hret).
  destruct (pump_step (start_pump name lines err) ch) as [p' ch'].
  simpl in Hret. by rewrite Hret.
Qed.

Lemma relay_run_cons (r : Relay) (a : Action) (sched : list Action) :
  relay_run r (a :: sched) = relay_run (relay_step r a) sched.
Proof. reflexivity. Qed.

(** With an unknown first pump, the channel, the second pump and [relayLogs]
    itself go the way they go when the first pump never runs. *)
Lemma relay_run_unknown1 (r r' : Relay) (sched : list Action) :
  stream_name (pump1 r) ≠ "stdout" → stream_name (pump1 r) ≠ "stderr" →
  quitChan r = quitChan r' → pump2 r = pump2 r' →
  relay_waiting r = relay_waiting r' →
  forwarded (pump1 (relay_run r sched)) = forwarded (pump1 r) ∧
  quitChan (relay_run r sched)
    = quitChan (relay_run r' (filter (fun a => a ≠ Pass1) sched)) ∧
  pump2 (relay_run r sched)
    = pump2 (relay_run r' (filter (fun a => a ≠ Pass1) sched)) ∧
  relay_waiting (relay_run r sched)
    = relay_waiting (relay_run r' (filter (fun a => a ≠ Pass1) sched)).
Proof.
  revert r r'. induction sched as [|a sched IH]; intros r r' Hout Herr Hq Hp Hw.
  - done.
  - rewrite relay_run_cons.
    destruct (decide (a = Pass1)) as [->|Hne].
    + rewrite filter_cons_False by (intros H; by apply H).
      destruct (pump_step_unknown (pump1 r) (quitChan r) Hout Herr)
        as (Hch & Hname & Hfwd & _).
      cbn [relay_step].
      destruct (pump_step (pump1 r) (quitChan r)) as [p ch]. simpl in *.
      rewrite <- Hfwd. apply IH; simpl; congruence.
    + rewrite filter_cons_True by done. rewrite relay_run_cons.
      assert (Hstep : pump1 (relay_step r a) = pump1 r ∧
                quitChan (relay_step r a) = quitChan (relay_step r' a) ∧
                pump2 (relay_step r a) = pump2 (relay_step r' a) ∧
                relay_waiting (relay_step r a) = relay_waiting (relay_step r' a)).
      { destruct a; [done| | | |]; cbn [relay_step]; rewrite <- ?Hq, <- ?Hp, <- ?Hw.
        - destruct (pump_step (pump2 r) (quitChan r)); simpl; auto.
        - destruct (relay_waiting r) eqn:Hwr; [|simpl; repeat split; congruence].
          destruct (try_recv (quitChan r)); simpl; auto.
        - simpl; auto.
        - simpl; auto. }
      destruct Hstep as (H1 & H2 & H3 & H4).
      rewrite <- H1. apply IH; congruence.
Qed.

(** The same with the pumps exchanged. *)
Lemma relay_run_unknown2 (r r' : Relay) (sched : list Action) :
  stream_name (pump2 r) ≠ "stdout" → stream_name (pump2 r) ≠ "stderr" →
  quitChan r = quitChan r' → pump1 r = pump1 r' →
  relay_waiting r = relay_waiting r' →
  forwarded (pump2 (relay_run r sched)) = forwarded (pump2 r) ∧
  quitChan (relay_run r sched)
    = quitChan (relay_run r' (filter (fun a => a ≠ Pass2) sched)) ∧
  pump1 (relay_run r sched)
    = pump1 (relay_run r' (filter (fun a => a ≠ Pass2) sched)) ∧
  relay_waiting (relay_run r sched)
    = relay_waiting (relay_run r' (filter (fun a => a ≠ Pass2) sched)).
Proof.
  revert r r'. induction sched as [|a sched IH]; intros r r' Hout Herr Hq Hp Hw.
  - done.
  - rewrite relay_run_cons.
    destruct (decide (a = Pass2)) as [->|Hne].
    + rewrite filter_cons_False by (intros H; by apply H).
      destruct (pump_step_unknown (pump2 r) (quitChan r) Hout Herr)
        as (Hch & Hname & Hfwd & _).
      cbn [relay_step].
      destruct (pump_step (pump2 r) (quitChan r)) as [p ch]. simpl in *.
      rewrite <- Hfwd. apply IH; simpl; congruence.
    + rewrite filter_cons_True by done. rewrite relay_run_cons.
      assert (Hstep : pump2 (relay_step r a) = pump2 r ∧
                quitChan (relay_step r a) = quitChan (relay_step r' a) ∧
                pump1 (relay_step r a) = pump1 (relay_step r' a) ∧
                relay_waiting (relay_step r a) = relay_waiting (relay_step r' a)).
      { destruct a; [|done| | |]; cbn [relay_step]; rewrite <- ?Hq, <- ?Hp, <- ?Hw.
        - destruct (pump_step (pump1 r) (quitChan r)); simpl; auto.
        - destruct (relay_waiting r) eqn:Hwr; [|simpl; repeat split; congruence].
          destruct (try_recv (quitChan r)); simpl; auto.
        - simpl; auto.
        - simpl; auto. }
      destruct Hstep as (H1 & H2 & H3 & H4).
      rewrite <- H1. apply IH; congruence.
Qed.

(** C9. A pump started with a stream name other than "stdout" and "stderr"
    returns and forwards no line to the log sink, and it never touches the
    quit channel.  In the relay, under every schedule, the other pump, the
    channel and [relayLogs] itself end exactly as they do when the passes of
    that pump are left out of the schedule. *)
Theorem unknown_stream_forwards_nothing (name sibling : string)
    (lines sibling_lines : list string) (err sibling_err : option error)
    (ch : Chan) (sched : list Action) :
  name ≠ "stdout" → name ≠ "stderr" →
  (returned (handleOneStream ch name lines err).1 = true ∧
   forwarded (handleOneStream ch name lines err).1 = [] ∧
   (handleOneStream ch name lines err).2 = ch) ∧
  (forwarded (pump1 (relay_run
       (start_relay name sibling lines sibling_lines err sibling_err) sched)) = [] ∧
   pump2 (relay_run
       (start_relay name sibling lines sibling_lines err sibling_err) sched)
   = pump2 (relay_run
       (start_relay name sibling lines sibling_lines err sibling_err)
       (filter (fun a => a ≠ Pass1) sched)) ∧
   quitChan (relay_run
       (start_relay name sibling lines sibling_lines err sibling_err) sched)
   = quitChan (relay_run
       (start_relay name sibling lines sibling_lines err sibling_err)
       (filter (fun a => a ≠ Pass1) sched))) ∧
  (forwarded (pump2 (relay_run
       (start_relay sibling name sibling_lines lines sibling_err err) sched)) = [] ∧
   pump1 (relay_run
       (start_relay sibling name sibling_lines lines sibling_err err) sched)
   = pump1 (relay_run
       (start_relay sibling name sibling_lines lines sibling_err err)
       (filter (fun a => a ≠ Pass2) sched)) ∧
   quitChan (relay_run
       (start_relay sibling name sibling_lines lines sibling_err err) sched)
   = quitChan (relay_run
       (start_relay sibling name sibling_lines lines sibling_err err)
       (filter (fun a => a ≠ Pass2) sched))).
Proof.
  intros Hout Herr. split; [|split].
  - rewrite (handleOneStream_unknown ch name lines err Hout Herr).
    destruct (pump_step_unknown (start_pump name lines err) ch Hout Herr)
      as (Hch & _ & Hfwd & Hret).
    auto.
  - destruct (relay_run_unknown1
                (start_relay name sibling lines sibling_lines err sibling_err)
                (start_relay name sibling lines sibling_lines err sibling_err)
                sched Hout Herr eq_refl eq_refl eq_refl) as (H1 & H2 & H3 & _).
    auto.
  - destruct (relay_run_unknown2
                (start_relay sibling name sibling_lines lines sibling_err err)
                (start_relay sibling name sibling_lines lines sibling_err err)
                sched Hout Herr eq_refl eq_refl eq_refl) as (H1 & H2 & H3 & _).
    auto.
Qed.

Lemma unknown_stream_forwards_nothing_witness :
  "stdin" ≠ "stdout" ∧ "stdin" ≠ "stderr" ∧
  forwarded (handleOneStream (mkChan false 0) "stdin" ["a"; "b"] None).1 = [] ∧
  pump2 (relay_run (start_relay "stdin" "stderr" ["a"; "b"] ["x"; "y"] None None)
           [Pass2; Pass1; SendQuit; Pass2; Pass1])
  = pump2 (relay_run (start_relay "stdin" "stderr" ["a"; "b"] ["x"; "y"] None None)
           [Pass2; SendQuit; Pass2]).
Proof.
  assert (H1 : "stdin" ≠ "stdout") by discriminate.
  assert (H2 : "stdin" ≠ "stderr") by discriminate.
  split; [exact H1|]. split; [exact H2|].
  pose proof (unknown_stream_forwards_nothing "stdin" "stderr" ["a"; "b"] ["x"; "y"]
                None None (mkChan false 0) [Pass2; Pass1; SendQuit; Pass2; Pass1] H1 H2)
    as ((_ & Hfwd & _) & (_ & Hsib & _) & _).
  split; [exact Hfwd | exact Hsib].
Defined.

(** * Further properties *)

(** ** Status reports *)

(** X1. [sendStatus] maps each of the four status constants to the Mesos
    state of the same name; the switch has no default, so any other status
    sends an update whose state is nil. *)
Theorem sendStatus_sends_state (drv : Driver) (taskId : string) :
  (∀ s, effects (trace (sendStatus drv (status_of_state s) taskId))
        = [EvSendStatusUpdate (Some s) taskId]) ∧
  (∀ status, (∀ s, status ≠ status_of_state s) →
     effects (trace (sendStatus drv status taskId))
     = [EvSendStatusUpdate None taskId]).
Proof.
  split.
  - intros s. unfold sendStatus.
    destruct s; simpl;
      match goal with
      | |- context [SendStatusUpdate drv ?s taskId] =>
          destruct (SendStatusUpdate drv s taskId)
      end; reflexivity.
  - intros status Hne. unfold sendStatus.
    rewrite (decide_False (P := status = TaskRunning)) by apply (Hne TASK_RUNNING).
    rewrite (decide_False (P := status = TaskFinished)) by apply (Hne TASK_FINISHED).
    rewrite (decide_False (P := status = TaskFailed)) by apply (Hne TASK_FAILED).
    rewrite (decide_False (P := status = TaskKilled)) by apply (Hne TASK_KILLED).
    simpl. destruct (SendStatusUpdate drv None taskId); reflexivity.
Qed.

(** X2. [failTask] and [finishTask] stop the driver only after the driver has
    taken the report and one second has passed; when the driver rejects the
    report they panic with its error and neither sleep nor stop the driver. *)
Theorem report_sleep_stop (drv : Driver) (ti : TaskInfo) :
  match SendStatusUpdate drv (Some TASK_FAILED) (TaskId ti) with
  | None =>
      failTask drv ti =
        ([EvSendStatusUpdate (Some TASK_FAILED) (TaskId ti);
          EvSleep (1 * time_Second); EvDriverStop], Done tt)
  | Some err =>
      effects (trace (failTask drv ti))
        = [EvSendStatusUpdate (Some TASK_FAILED) (TaskId ti)] ∧
      outcome (failTask drv ti) = Panic (error_Error err)
  end ∧
  match SendStatusUpdate drv (Some TASK_FINISHED) (TaskId ti) with
  | None =>
      finishTask drv ti =
        ([EvSendStatusUpdate (Some TASK_FINISHED) (TaskId ti);
          EvSleep (1 * time_Second); EvDriverStop], Done tt)
  | Some err =>
      effects (trace (finishTask drv ti))
        = [EvSendStatusUpdate (Some TASK_FINISHED) (TaskId ti)] ∧
      outcome (finishTask drv ti) = Panic (error_Error err)
  end.
Proof.
  unfold failTask, finishTask, sendStatus. simpl.
  split.
  - destruct (SendStatusUpdate drv (Some TASK_FAILED) (TaskId ti)); simpl; auto.
  - destruct (SendStatusUpdate drv (Some TASK_FINISHED) (TaskId ti)); simpl; auto.
Qed.

(** ** More on [LaunchTask] *)

(** X3. When the driver takes the Running report, the pull flag is set, and
    Docker creates (with an id of twelve characters or more) and starts the
    container, [LaunchTask] returns that container with both goroutines
    started and no terminal state reported; the image is pulled first exactly
    when the flag says so. *)
Theorem LaunchTask_success (drv : Driver) (dk : Docker) (ti : TaskInfo)
    (c : Container) (pull : bool) :
  SendStatusUpdate drv (Some TASK_RUNNING) (TaskId ti) = None →
  ForcePullImage ti = Some pull →
  CreateContainer dk = inl c →
  (12 ≤ String.length (ID c))%nat →
  StartContainer dk (ID c) = None →
  outcome (LaunchTask drv dk ti) = Done (Some c) ∧
  effects (trace (LaunchTask drv dk ti)) =
    [EvWriteFile "/tmp/taskinfo.json";
     EvSendStatusUpdate (Some TASK_RUNNING) (TaskId ti)] ++
    (if pull then [EvPullImage] else []) ++
    [EvCreateContainer; EvStartContainer (ID c);
     EvGo "watchContainer"; EvGo "func"] ∧
  terminal_reports (trace (LaunchTask drv dk ti)) = [].
Proof.
  launch_cases drv dk ti; intros; simplify_eq; try congruence; try done.
Qed.

Lemma LaunchTask_success_witness :
  SendStatusUpdate Example.driver (Some TASK_RUNNING) (TaskId Cases.taskInfo_force_pull)
    = None ∧
  ForcePullImage Cases.taskInfo_force_pull = Some true ∧
  CreateContainer Example.docker = inl Example.container ∧
  (12 ≤ String.length (ID Example.container))%nat ∧
  StartContainer Example.docker (ID Example.container) = None ∧
  outcome (LaunchTask Example.driver Example.docker Cases.taskInfo_force_pull)
    = Done (Some Example.container).
Proof.
  assert (Hlen : (12 ≤ String.length (ID Example.container))%nat) by (simpl; lia).
  repeat (split; [first [reflexivity | exact Hlen]|]).
  apply (LaunchTask_success Example.driver Example.docker Cases.taskInfo_force_pull
           Example.container true eq_refl eq_refl eq_refl Hlen eq_refl).
Defined.

(** X4. A task info without the pull flag (a nil pointer on the way to
    [ForcePullImage]) makes [LaunchTask] panic: no Docker call is made and no
    terminal state is reported, although Running may already have gone out. *)
Theorem LaunchTask_nil_pull_flag (drv : Driver) (dk : Docker) (ti : TaskInfo) :
  ForcePullImage ti = None →
  (∃ msg, outcome (LaunchTask drv dk ti) = Panic msg) ∧
  count is_docker (trace (LaunchTask drv dk ti)) = 0%nat ∧
  count is_stop (trace (LaunchTask drv dk ti)) = 0%nat ∧
  terminal_reports (trace (LaunchTask drv dk ti)) = [].
Proof.
  launch_cases drv dk ti; intros; simplify_eq; try congruence.
  all: split; [by eexists|done].
Qed.

Lemma LaunchTask_nil_pull_flag_witness :
  ForcePullImage Cases.taskInfo_no_docker = None ∧
  count is_docker
    (trace (LaunchTask Example.driver Example.docker Cases.taskInfo_no_docker)) = 0%nat.
Proof.
  split; [reflexivity|].
  apply (LaunchTask_nil_pull_flag Example.driver Example.docker
           Cases.taskInfo_no_docker eq_refl).
Defined.

(** X5. When Docker returns a container whose id has fewer than twelve
    characters, [LaunchTask] panics on [container.ID[:12]]: the container has
    been created but is never started, the task is never reported Failed and
    the driver is not stopped. *)
Theorem LaunchTask_short_id (drv : Driver) (dk : Docker) (ti : TaskInfo)
    (c : Container) (pull : bool) :
  SendStatusUpdate drv (Some TASK_RUNNING) (TaskId ti) = None →
  ForcePullImage ti = Some pull →
  CreateContainer dk = inl c →
  (String.length (ID c) < 12)%nat →
  outcome (LaunchTask drv dk ti) = Panic "slice bounds out of range" ∧
  count is_create (trace (LaunchTask drv dk ti)) = 1%nat ∧
  count is_start (trace (LaunchTask drv dk ti)) = 0%nat ∧
  count is_stop (trace (LaunchTask drv dk ti)) = 0%nat ∧
  terminal_reports (trace (LaunchTask drv dk ti)) = [].
Proof.
  launch_cases drv dk ti; intros; simplify_eq; try congruence; try lia; done.
Qed.

Lemma LaunchTask_short_id_witness :
  SendStatusUpdate Example.driver (Some TASK_RUNNING) (TaskId Example.taskInfo) = None ∧
  ForcePullImage Example.taskInfo = Some false ∧
  CreateContainer Cases.docker_short_id = inl Cases.short_container ∧
  (String.length (ID Cases.short_container) < 12)%nat ∧
  outcome (LaunchTask Example.driver Cases.docker_short_id Example.taskInfo)
    = Panic "slice bounds out of range".
Proof.
  assert (Hlen : (String.length (ID Cases.short_container) < 12)%nat) by (simpl; lia).
  repeat (split; [first [reflexivity | exact Hlen]|]).
  apply (LaunchTask_short_id Example.driver Cases.docker_short_id Example.taskInfo
           Cases.short_container false eq_refl eq_refl eq_refl Hlen).
Defined.

(** X6. When the driver rejects the Running report, [LaunchTask] panics with
    the driver's error before any Docker call: nothing is pulled, created or
    started. *)
Theorem LaunchTask_running_rejected (drv : Driver) (dk : Docker) (ti : TaskInfo)
    (err : error) :
  SendStatusUpdate drv (Some TASK_RUNNING) (TaskId ti) = Some err →
  outcome (LaunchTask drv dk ti) = Panic (error_Error err) ∧
  count is_docker (trace (LaunchTask drv dk ti)) = 0%nat ∧
  count is_go (trace (LaunchTask drv dk ti)) = 0%nat.
Proof.
  launch_cases drv dk ti; intros; simplify_eq; try congruence; done.
Qed.

Lemma LaunchTask_running_rejected_witness :
  SendStatusUpdate Cases.driver_down (Some TASK_RUNNING) (TaskId Example.taskInfo)
    = Some (foreign "mesos" "driver is not running") ∧
  outcome (LaunchTask Cases.driver_down Example.docker Example.taskInfo)
    = Panic "driver is not running".
Proof.
  split; [reflexivity|].
  apply (LaunchTask_running_rejected Cases.driver_down Example.docker Example.taskInfo
           (foreign "mesos" "driver is not running") eq_refl).
Defined.

(** X7. Once Running has been taken, a forced pull comes directly before the
    create call, and without the flag nothing is pulled: the create call
    follows the Running report at once. *)
Theorem LaunchTask_pull_before_create (drv : Driver) (dk : Docker) (ti : TaskInfo)
    (pull : bool) :
  SendStatusUpdate drv (Some TASK_RUNNING) (TaskId ti) = None →
  ForcePullImage ti = Some pull →
  ∃ post,
    effects (trace (LaunchTask drv dk ti)) =
      [EvWriteFile "/tmp/taskinfo.json";
       EvSendStatusUpdate (Some TASK_RUNNING) (TaskId ti)] ++
      (if pull then [EvPullImage] else []) ++ EvCreateContainer :: post ∧
    count is_pull post = 0%nat ∧ count is_create post = 0%nat.
Proof.
  launch_cases drv dk ti; intros; simplify_eq; try congruence.
  all: eexists; split; [reflexivity|done].
Qed.

Lemma LaunchTask_pull_before_create_witness :
  SendStatusUpdate Example.driver (Some TASK_RUNNING) (TaskId Cases.taskInfo_force_pull)
    = None ∧
  ForcePullImage Cases.taskInfo_force_pull = Some true ∧
  ∃ post,
    effects (trace (LaunchTask Example.driver Example.docker Cases.taskInfo_force_pull)) =
      [EvWriteFile "/tmp/taskinfo.json";
       EvSendStatusUpdate (Some TASK_RUNNING) (TaskId Cases.taskInfo_force_pull)] ++
      (if true then [EvPullImage] else []) ++ EvCreateContainer :: post ∧
    count is_pull post = 0%nat ∧ count is_create post = 0%nat.
Proof.
  split; [reflexivity|]. split; [reflexivity|].
  apply (LaunchTask_pull_before_create Example.driver Example.docker
           Cases.taskInfo_force_pull true eq_refl eq_refl).
Defined.

(** ** More on the Sidecar poll *)

Lemma count_app (kind : Event → bool) (t1 t2 : list Event) :
  count kind (t1 ++ t2) = (count kind t1 + count kind t2)%nat.
Proof. unfold count. by rewrite filter_app, length_app. Qed.

Lemma fetch_events (w : PollWorld) (i : nat) :
  Forall (fun e => is_poll e = true) (trace (fetch w i)) ∧
  count is_http (trace (fetch w i)) = 1%nat.
Proof.
  unfold fetch. destruct (http_Get w i) as [[r|] [e|]]; simpl;
    try destruct (Body r); simpl; split; try reflexivity;
    repeat (apply Forall_cons; split; [reflexivity|]); apply Forall_nil; exact I.
Qed.

Lemma retryLoop_events (w : PollWorld) (n i : nat) (st : string * option error) :
  Forall (fun e => is_poll e = true) (trace (retryLoop w n i st)) ∧
  (count is_http (trace (retryLoop w n i st)) ≤ n)%nat.
Proof.
  revert i st. induction n as [|n IH]; intros i st.
  - split; [apply Forall_nil; exact I | reflexivity].
  - rewrite retryLoop_S, trace_bind, count_app.
    destruct (fetch_events w i) as [Hall Hcount]. rewrite Hcount.
    destruct (outcome (fetch w i)) as [st'|msg].
    + destruct (IH (S i) st') as [Hall' Hcount'].
      split; [by apply Forall_app | lia].
    + rewrite app_nil_r. split; [done | unfold count; simpl; lia].
Qed.

(** X8. A Sidecar poll only logs and talks to Sidecar: every request goes to
    [SidecarUrl], there are at most five of them, and the poll never sleeps,
    never calls Docker, never reports a status and never stops the driver. *)
Theorem sidecarStatus_only_polls (w : PollWorld) (c : Container) :
  Forall (fun e => is_poll e = true) (trace (sidecarStatus w c)) ∧
  (count is_http (trace (sidecarStatus w c)) ≤ SidecarRetryCount)%nat ∧
  (∀ url, EvHttpGet url ∈ trace (sidecarStatus w c) → url = SidecarUrl) ∧
  count is_docker (trace (sidecarStatus w c)) = 0%nat ∧
  count is_delay (trace (sidecarStatus w c)) = 0%nat ∧
  count is_stop (trace (sidecarStatus w c)) = 0%nat.
Proof.
  assert (Hall : Forall (fun e => is_poll e = true) (trace (sidecarStatus w c)) ∧
                 (count is_http (trace (sidecarStatus w c)) ≤ SidecarRetryCount)%nat).
  { unfold sidecarStatus. rewrite trace_bind, count_app.
    destruct (retryLoop_events w SidecarRetryCount 0 ("", None)) as [Hall Hcount].
    assert (Htail : ∀ t : list Event,
              Forall (fun e => is_poll e = true) t → count is_http t = 0%nat →
              Forall (fun e => is_poll e = true)
                (trace (retryLoop w SidecarRetryCount 0 ("", None)) ++ t) ∧
              (count is_http (trace (retryLoop w SidecarRetryCount 0 ("", None)))
                 + count is_http t ≤ SidecarRetryCount)%nat).
    { intros t Ht Hc. split; [by apply Forall_app | lia]. }
    destruct (outcome (retryLoop w SidecarRetryCount 0 ("", None)))
      as [[data [err|]]|msg]; [apply Htail; by repeat constructor| |by apply Htail].
    destruct (json_Unmarshal w data) as [services|err];
      [|apply Htail; by repeat constructor].
    destruct (Servers services !! os_Getenv w "TASK_HOST") as [server|];
      [|apply Htail; by repeat constructor].
    unfold slice_to.
    destruct (decide (12 ≤ String.length (ID c))%nat);
      [|apply Htail; by repeat constructor].
    rewrite bind_mret.
    destruct (Services server !! String.substring 0 12 (ID c)) as [svc|];
      [|apply Htail; by repeat constructor].
    destruct (decide (Status svc = UNHEALTHY ∨ Status svc = TOMBSTONE));
      apply Htail; by repeat constructor. }
  destruct Hall as [Hall Hcount].
  assert (Hzero : ∀ kind : Event → bool,
            (∀ e, is_poll e = true → kind e = false) →
            count kind (trace (sidecarStatus w c)) = 0%nat).
  { intros kind Hdis. unfold count. clear Hcount.
    induction Hall as [|e t He Ht IH]; [reflexivity|].
    rewrite filter_cons_False; [exact IH|]. rewrite (Hdis e He). done. }
  split; [exact Hall|]. split; [exact Hcount|]. split; [|split; [|split]].
  - intros url Hin. rewrite Forall_forall in Hall. apply Hall in Hin.
    simpl in Hin. by apply bool_decide_eq_true in Hin.
  - apply Hzero. by intros [].
  - apply Hzero. by intros [].
  - apply Hzero. by intros [].
Qed.

Lemma fetch_same (w w' : PollWorld) (i : nat) :
  http_Get w i = http_Get w' i → fetch w i = fetch w' i.
Proof. intros H. unfold fetch. by rewrite H. Qed.

(** X9. While Sidecar answers every request, the outcome of a poll is decided
    by the fifth request alone: what the first four returned, bodies or
    errors, is dropped.  In particular an answer that reported the container
    unhealthy is lost when the last request cannot be read. *)
Theorem sidecarStatus_last_attempt_decides (w w' : PollWorld) (c : Container) :
  (∀ j, (j < SidecarRetryCount)%nat → ∃ r, (http_Get w j).1 = Some r) →
  (∀ j, (j < SidecarRetryCount)%nat → ∃ r, (http_Get w' j).1 = Some r) →
  http_Get w 4 = http_Get w' 4 →
  (∀ data, json_Unmarshal w data = json_Unmarshal w' data) →
  environ w = environ w' →
  outcome (sidecarStatus w c) = outcome (sidecarStatus w' c).
Proof.
  intros Hall Hall' Hlast Hjson Henv.
  destruct (retryLoop_all_passes w SidecarRetryCount 0 ("", None)) as [_ Hout].
  { intros j Hj. apply Hall. lia. }
  destruct (retryLoop_all_passes w' SidecarRetryCount 0 ("", None)) as [_ Hout'].
  { intros j Hj. apply Hall'. lia. }
  cbn [SidecarRetryCount Nat.add] in Hout, Hout'.
  rewrite (fetch_same w w' 4 Hlast) in Hout.
  unfold sidecarStatus. rewrite !outcome_bind, Hout, Hout'.
  destruct (outcome (fetch w' 4)) as [[data [err|]]|msg]; [reflexivity| |reflexivity].
  unfold os_Getenv. rewrite Hjson, Henv. reflexivity.
Qed.

Lemma sidecarStatus_last_attempt_decides_witness :
  (∀ j, (j < SidecarRetryCount)%nat → ∃ r, (http_Get Cases.sidecar_flaky j).1 = Some r) ∧
  (∀ j, (j < SidecarRetryCount)%nat →
     ∃ r, (http_Get Cases.sidecar_unreadable j).1 = Some r) ∧
  http_Get Cases.sidecar_flaky 4 = http_Get Cases.sidecar_unreadable 4 ∧
  (∀ data, json_Unmarshal Cases.sidecar_flaky data
           = json_Unmarshal Cases.sidecar_unreadable data) ∧
  environ Cases.sidecar_flaky = environ Cases.sidecar_unreadable ∧
  outcome (fetch Cases.sidecar_flaky 0) = Done ("{}", None) ∧
  outcome (sidecarStatus Cases.sidecar_flaky Example.container)
    = outcome (sidecarStatus Cases.sidecar_unreadable Example.container).
Proof.
  assert (H1 : ∀ j, (j < SidecarRetryCount)%nat →
                 ∃ r, (http_Get Cases.sidecar_flaky j).1 = Some r).
  { intros j _. simpl. destruct (decide (j = 4%nat)); by eexists. }
  assert (H2 : ∀ j, (j < SidecarRetryCount)%nat →
                 ∃ r, (http_Get Cases.sidecar_unreadable j).1 = Some r).
  { intros j _. by eexists. }
  split; [exact H1|]. split; [exact H2|].
  split; [reflexivity|]. split; [reflexivity|]. split; [reflexivity|].
  split; [reflexivity|].
  apply (sidecarStatus_last_attempt_decides Cases.sidecar_flaky Cases.sidecar_unreadable
           Example.container H1 H2 eq_refl (fun _ => eq_refl) eq_refl).
Defined.

Lemma retryLoop_nil_at (w : PollWorld) (n i k : nat) (st : string * option error)
    (err : option error) :
  (i ≤ k < i + n)%nat →
  (∀ j, (i ≤ j < k)%nat → ∃ r, (http_Get w j).1 = Some r) →
  http_Get w k = (None, err) →
  outcome (retryLoop w n i st)
    = Panic "invalid memory address or nil pointer dereference" ∧
  count is_http (trace (retryLoop w n i st)) = S (k - i).
Proof.
  revert i st. induction n as [|n IH]; intros i st Hk Hall Hnil; [lia|].
  rewrite retryLoop_S, trace_bind, outcome_bind, count_app.
  destruct (decide (i = k)) as [->|Hne].
  - rewrite (fetch_nil_response w k err Hnil). simpl.
    split; [reflexivity|]. rewrite Nat.sub_diag. reflexivity.
  - destruct (Hall i ltac:(lia)) as [r Hr].
    destruct (http_Get w i) as [resp e] eqn:Hget. simpl in Hr. subst resp.
    destruct (fetch_response w i r e Hget) as (t & res & Hf & _ & _ & _).
    destruct (fetch_events w i) as [_ Hc]. rewrite Hc, Hf. simpl.
    destruct (IH (S i) res) as [Hout Hcount]; [lia| |exact Hnil|].
    { intros j Hj. apply Hall. lia. }
    split; [exact Hout|]. rewrite Hcount. lia.
Qed.

(** X10. A nil response on any of the five requests, also after requests that
    were answered, makes the poll panic at that request: the requests after
    it are not sent and nothing is returned to the watch loop. *)
Theorem sidecarStatus_nil_response_panics (w : PollWorld) (c : Container)
    (k : nat) (err : option error) :
  (k < SidecarRetryCount)%nat →
  (∀ j, (j < k)%nat → ∃ r, (http_Get w j).1 = Some r) →
  http_Get w k = (None, err) →
  outcome (sidecarStatus w c)
    = Panic "invalid memory address or nil pointer dereference" ∧
  count is_http (trace (sidecarStatus w c)) = S k.
Proof.
  intros Hk Hall Hnil.
  destruct (retryLoop_nil_at w SidecarRetryCount 0 k ("", None) err) as [Hout Hcount];
    [lia | intros j Hj; apply Hall; lia | exact Hnil |].
  unfold sidecarStatus. rewrite trace_bind, outcome_bind, count_app, Hout, Hcount.
  rewrite Nat.sub_0_r. split; [reflexivity|]. unfold count. simpl. lia.
Qed.

Lemma sidecarStatus_nil_response_panics_witness :
  (3 < SidecarRetryCount)%nat ∧
  (∀ j, (j < 3)%nat → ∃ r, (http_Get Cases.sidecar_dies j).1 = Some r) ∧
  http_Get Cases.sidecar_dies 3
    = (None, Some (foreign "net/http" "connection refused")) ∧
  outcome (sidecarStatus Cases.sidecar_dies Example.container)
    = Panic "invalid memory address or nil pointer dereference" ∧
  count is_http (trace (sidecarStatus Cases.sidecar_dies Example.container)) = 4%nat.
Proof.
  assert (H1 : (3 < SidecarRetryCount)%nat) by (unfold SidecarRetryCount; lia).
  assert (H2 : ∀ j, (j < 3)%nat → ∃ r, (http_Get Cases.sidecar_dies j).1 = Some r).
  { intros j Hj. simpl. rewrite decide_True by done. by eexists. }
  split; [exact H1|]. split; [exact H2|]. split; [reflexivity|].
  apply (sidecarStatus_nil_response_panics Cases.sidecar_dies Example.container 3
           (Some (foreign "net/http" "connection refused")) H1 H2 eq_refl).
Defined.

(** X11. With a container id shorter than twelve characters the poll panics
    on [container.ID[:12]], but only once the body has parsed and the host
    was found in it; a body that does not parse or lacks the host still
    returns nil. *)
Theorem sidecarStatus_short_id (w : PollWorld) (c : Container)
    (tr : list Event) (data : string) :
  retryLoop w SidecarRetryCount 0 ("", None) = (tr, Done (data, None)) →
  (String.length (ID c) < 12)%nat →
  outcome (sidecarStatus w c) =
    match json_Unmarshal w data with
    | inr _ => Done None
    | inl services =>
        match Servers services !! os_Getenv w "TASK_HOST" with
        | None => Done None
        | Some _ => Panic "slice bounds out of range"
        end
    end.
Proof.
  intros Hloop Hlen. unfold sidecarStatus. rewrite Hloop, bind_Done.
  cbn [outcome snd].
  destruct (json_Unmarshal w data) as [services|e]; [|done].
  destruct (Servers services !! os_Getenv w "TASK_HOST") as [server|]; [|done].
  unfold slice_to. rewrite decide_False by lia. reflexivity.
Qed.

Lemma sidecarStatus_short_id_witness :
  retryLoop (Example.sidecar_up ALIVE) SidecarRetryCount 0 ("", None)
    = (concat (replicate 5 [EvHttpGet SidecarUrl; EvReadAll; EvBodyClose]),
       Done ("{}", None)) ∧
  (String.length (ID Cases.short_container) < 12)%nat ∧
  outcome (sidecarStatus (Example.sidecar_up ALIVE) Cases.short_container)
    = Panic "slice bounds out of range".
Proof.
  assert (Hlen : (String.length (ID Cases.short_container) < 12)%nat) by (simpl; lia).
  split; [reflexivity|]. split; [exact Hlen|].
  apply (sidecarStatus_short_id (Example.sidecar_up ALIVE) Cases.short_container
           (concat (replicate 5 [EvHttpGet SidecarUrl; EvReadAll; EvBodyClose])) "{}"
           eq_refl Hlen).
Defined.

(** X12. When TASK_HOST is not set, the poll looks for a server under the
    empty name: a state without such a server is taken as healthy, whatever it
    says about the container under other hosts. *)
Theorem sidecarStatus_host_unset (w : PollWorld) (c : Container)
    (tr : list Event) (data : string) (services : SidecarServices) :
  retryLoop w SidecarRetryCount 0 ("", None) = (tr, Done (data, None)) →
  environ w !! "TASK_HOST" = None →
  json_Unmarshal w data = inl services →
  Servers services !! "" = None →
  sidecarStatus w c =
    (tr ++ [EvLog Error
       "Can't find this server ('%s') in the Sidecar state! Assuming healthy..."],
     Done None).
Proof.
  intros Hloop Henv Hjson Hnone. unfold sidecarStatus. rewrite Hloop, bind_Done.
  cbn [outcome snd trace fst]. rewrite Hjson. unfold os_Getenv. rewrite Henv.
  simpl. rewrite Hnone. reflexivity.
Qed.

Lemma sidecarStatus_host_unset_witness :
  retryLoop Cases.sidecar_no_host SidecarRetryCount 0 ("", None)
    = (concat (replicate 5 [EvHttpGet SidecarUrl; EvReadAll; EvBodyClose]),
       Done ("{}", None)) ∧
  environ Cases.sidecar_no_host !! "TASK_HOST" = None ∧
  json_Unmarshal Cases.sidecar_no_host "{}" = inl (Example.state UNHEALTHY) ∧
  Servers (Example.state UNHEALTHY) !! "" = None ∧
  outcome (sidecarStatus Cases.sidecar_no_host Example.container) = Done None.
Proof.
  split; [reflexivity|]. split; [reflexivity|]. split; [reflexivity|].
  split; [reflexivity|].
  rewrite (sidecarStatus_host_unset Cases.sidecar_no_host Example.container
             (concat (replicate 5 [EvHttpGet SidecarUrl; EvReadAll; EvBodyClose]))
             "{}" (Example.state UNHEALTHY) eq_refl eq_refl eq_refl eq_refl).
  reflexivity.
Defined.

(** ** More on the watch loop *)

Lemma count_disjoint (p kind : Event → bool) (tr : list Event) :
  Forall (fun e => p e = true) tr →
  (∀ e, p e = true → kind e = false) →
  count kind tr = 0%nat.
Proof.
  intros Hall Hdis. unfold count.
  induction Hall as [|e t He Ht IH]; [reflexivity|].
  rewrite filter_cons_False; [exact IH|]. rewrite (Hdis e He). done.
Qed.

Lemma sidecarStatus_count_zero (w : PollWorld) (c : Container) (kind : Event → bool) :
  (∀ e, is_poll e = true → kind e = false) →
  count kind (trace (sidecarStatus w c)) = 0%nat.
Proof.
  intros Hdis. apply (count_disjoint is_poll); [|exact Hdis].
  unfold sidecarStatus. rewrite trace_bind.
  destruct (retryLoop_events w SidecarRetryCount 0 ("", None)) as [Hall _].
  apply Forall_app. split; [exact Hall|].
  destruct (outcome (retryLoop w SidecarRetryCount 0 ("", None)))
    as [[data [err|]]|msg]; [by repeat constructor| |by repeat constructor].
  destruct (json_Unmarshal w data) as [services|err]; [|by repeat constructor].
  destruct (Servers services !! os_Getenv w "TASK_HOST") as [server|];
    [|by repeat constructor].
  unfold slice_to.
  destruct (decide (12 ≤ String.length (ID c))%nat); [|by repeat constructor].
  rewrite bind_mret.
  destruct (Services server !! String.substring 0 12 (ID c)) as [svc|];
    [|by repeat constructor].
  destruct (decide (Status svc = UNHEALTHY ∨ Status svc = TOMBSTONE));
    by repeat constructor.
Qed.

(** Every pass lists the containers once, and does not stop the driver. *)
Lemma watchIteration_counts (c : Container) (it : IterWorld) :
  count is_list (trace (watchIteration c it)) = 1%nat ∧
  count is_stop (trace (watchIteration c it)) = 0%nat.
Proof.
  destruct (ListContainers it) as [entries|err] eqn:Hl.
  - rewrite (watchIteration_listing c it entries Hl).
    destruct (find_entry c entries); [|done].
    cbn [trace fst]. rewrite !count_app, !sidecarStatus_count_zero; [done| |];
      by intros [].
  - unfold watchIteration. rewrite Hl. done.
Qed.

(** The loop over passes that find nothing wrong, followed by more passes. *)
Lemma looper_Loop_healthy (interval : Z) (c : Container) (pre rest : list IterWorld) :
  Forall (healthy_pass c) pre →
  outcome (looper_Loop interval (watchIteration c) (pre ++ rest))
    = outcome (looper_Loop interval (watchIteration c) rest) ∧
  terminal_reports (trace (looper_Loop interval (watchIteration c) (pre ++ rest)))
    = terminal_reports (trace (looper_Loop interval (watchIteration c) rest)) ∧
  count is_list (trace (looper_Loop interval (watchIteration c) (pre ++ rest)))
    = (length pre
       + count is_list (trace (looper_Loop interval (watchIteration c) rest)))%nat ∧
  count is_stop (trace (looper_Loop interval (watchIteration c) (pre ++ rest)))
    = count is_stop (trace (looper_Loop interval (watchIteration c) rest)).
Proof.
  intros Hpre. induction Hpre as [|it pre Hit Hpre IH]; [done|].
  cbn [app looper_Loop length].
  rewrite trace_bind, outcome_bind, terminal_reports_app, !count_app.
  rewrite watchIteration_no_report.
  destruct (watchIteration_counts c it) as [-> ->].
  unfold healthy_pass in Hit. rewrite Hit.
  rewrite bind_emit. cbn [trace outcome fst snd].
  destruct IH as (H1 & H2 & H3 & H4).
  split; [exact H1|]. split; [exact H2|]. split.
  - change (EvTick interval :: ?t) with ([EvTick interval] ++ t).
    rewrite count_app, H3. unfold count at 1. simpl. lia.
  - change (EvTick interval :: ?t) with ([EvTick interval] ++ t).
    rewrite count_app, H4. unfold count at 1. simpl. lia.
Qed.

Lemma watchContainer_unfold (c : Container) (its : list IterWorld) :
  watchContainer c its =
    (EvSleep SidecarBackoff
       :: trace (looper_Loop (3 * time_Second) (watchIteration c) its),
     outcome (looper_Loop (3 * time_Second) (watchIteration c) its)).
Proof. unfold watchContainer. by rewrite bind_emit. Qed.

Lemma awaitLooper_error (drv : Driver) (ti : TaskInfo) (c : Container) (e : error) :
  (12 ≤ String.length (ID c))%nat →
  terminal_reports (trace (awaitLooper drv ti c (Stopped (Some e)))) = [TASK_FAILED] ∧
  count is_list (trace (awaitLooper drv ti c (Stopped (Some e)))) = 0%nat.
Proof.
  intros Hlen. unfold awaitLooper, slice_to. rewrite decide_True by done.
  rewrite bind_mret, bind_emit. unfold failTask, sendStatus. simpl.
  destruct (SendStatusUpdate drv (Some TASK_FAILED) (TaskId ti)); done.
Qed.

(** X13. Whatever error a pass of the watch loop returns (a failed listing, a
    missing container, an unhealthy service), the loop stops there, later
    passes do not run, and the task is reported Failed; the containers were
    listed once per pass up to that one. *)
Theorem monitor_error_fails_task (drv : Driver) (ti : TaskInfo) (c : Container)
    (pre post : list IterWorld) (it : IterWorld) (e : error) :
  Forall (healthy_pass c) pre →
  outcome (watchIteration c it) = Done (Some e) →
  (12 ≤ String.length (ID c))%nat →
  monitor drv ti c (pre ++ it :: post) = monitor drv ti c (pre ++ [it]) ∧
  terminal_reports (trace (monitor drv ti c (pre ++ it :: post))) = [TASK_FAILED] ∧
  count is_list (trace (monitor drv ti c (pre ++ it :: post))) = S (length pre).
Proof.
  intros Hpre Hit Hlen.
  destruct (looper_Loop_stops (3 * time_Second) (watchIteration c) pre post it e
              Hpre Hit) as [Heq Hout].
  destruct (looper_Loop_healthy (3 * time_Second) c pre (it :: post) Hpre)
    as (_ & _ & Hlist & _).
  destruct (awaitLooper_error drv ti c e Hlen) as [Hrep Hnolist].
  split; [unfold monitor, watchContainer; by rewrite Heq|].
  unfold monitor. rewrite trace_bind, terminal_reports_app, count_app.
  rewrite watchContainer_no_report, watchContainer_unfold.
  cbn [outcome snd trace fst]. rewrite Hout, Hrep, Hnolist.
  split; [reflexivity|].
  change (EvSleep SidecarBackoff :: ?t) with ([EvSleep SidecarBackoff] ++ t).
  rewrite count_app, Hlist. cbn [looper_Loop].
  rewrite trace_bind, count_app. destruct (watchIteration_counts c it) as [-> _].
  rewrite Hit. unfold count. simpl. lia.
Qed.

Lemma monitor_error_fails_task_witness :
  Forall (healthy_pass Example.container) [Example.pass ALIVE] ∧
  outcome (watchIteration Example.container (Example.pass UNHEALTHY))
    = Done (Some (unhealthy Example.container)) ∧
  (12 ≤ String.length (ID Example.container))%nat ∧
  terminal_reports
    (trace (monitor Example.driver Example.taskInfo Example.container
              ([Example.pass ALIVE] ++ Example.pass UNHEALTHY :: [Example.pass ALIVE])))
    = [TASK_FAILED].
Proof.
  assert (H1 : Forall (healthy_pass Example.container) [Example.pass ALIVE]).
  { apply Forall_cons; split; [reflexivity | apply Forall_nil; exact I]. }
  assert (H3 : (12 ≤ String.length (ID Example.container))%nat) by (simpl; lia).
  split; [exact H1|]. split; [reflexivity|]. split; [exact H3|].
  apply (monitor_error_fails_task Example.driver Example.taskInfo Example.container
           [Example.pass ALIVE] [Example.pass ALIVE] (Example.pass UNHEALTHY)
           (unhealthy Example.container) H1 eq_refl H3).
Defined.

(** X14. A pass in which [ListContainers] fails returns that error without
    asking Sidecar, and the task is reported Failed: a listing error is not
    retried. *)
Theorem watch_listing_error_fails_task (drv : Driver) (ti : TaskInfo) (c : Container)
    (pre post : list IterWorld) (it : IterWorld) (e : error) :
  Forall (healthy_pass c) pre →
  ListContainers it = inr e →
  (12 ≤ String.length (ID c))%nat →
  watchIteration c it = ([EvListContainers true], Done (Some e)) ∧
  terminal_reports (trace (monitor drv ti c (pre ++ it :: post))) = [TASK_FAILED].
Proof.
  intros Hpre Hl Hlen.
  assert (Hit : watchIteration c it = ([EvListContainers true], Done (Some e))).
  { unfold watchIteration. rewrite Hl. reflexivity. }
  split; [exact Hit|].
  apply (monitor_error_fails_task drv ti c pre post it e Hpre); [by rewrite Hit | exact Hlen].
Qed.

Lemma watch_listing_error_fails_task_witness :
  Forall (healthy_pass Example.container) [Example.pass ALIVE] ∧
  ListContainers Cases.pass_list_fails
    = inr (foreign "docker" "cannot connect to the Docker daemon") ∧
  (12 ≤ String.length (ID Example.container))%nat ∧
  terminal_reports
    (trace (monitor Example.driver Example.taskInfo Example.container
              ([Example.pass ALIVE] ++ Cases.pass_list_fails :: [])))
    = [TASK_FAILED].
Proof.
  assert (H1 : Forall (healthy_pass Example.container) [Example.pass ALIVE]).
  { apply Forall_cons; split; [reflexivity | apply Forall_nil; exact I]. }
  assert (H3 : (12 ≤ String.length (ID Example.container))%nat) by (simpl; lia).
  split; [exact H1|]. split; [reflexivity|]. split; [exact H3|].
  apply (watch_listing_error_fails_task Example.driver Example.taskInfo
           Example.container [Example.pass ALIVE] [] Cases.pass_list_fails
           (foreign "docker" "cannot connect to the Docker daemon") H1 eq_refl H3).
Defined.

(** X15. While every pass finds the container listed and Sidecar content, the
    watch goes on: it starts with the back-off sleep of one minute, lists the
    containers once per pass, reports no terminal state and does not stop the
    driver. *)
Theorem monitor_healthy_keeps_running (drv : Driver) (ti : TaskInfo) (c : Container)
    (its : list IterWorld) :
  Forall (healthy_pass c) its →
  (12 ≤ String.length (ID c))%nat →
  outcome (watchContainer c its) = Done StillLooping ∧
  (∃ t, trace (monitor drv ti c its) = EvSleep SidecarBackoff :: t) ∧
  terminal_reports (trace (monitor drv ti c its)) = [] ∧
  count is_stop (trace (monitor drv ti c its)) = 0%nat ∧
  count is_list (trace (monitor drv ti c its)) = length its.
Proof.
  intros Hall Hlen.
  destruct (looper_Loop_healthy (3 * time_Second) c its [] Hall)
    as (Hout & _ & Hlist & Hstop).
  rewrite app_nil_r in Hout, Hlist, Hstop. cbn [looper_Loop] in Hout, Hlist, Hstop.
  assert (Hw : outcome (watchContainer c its) = Done StillLooping).
  { rewrite watchContainer_unfold. exact Hout. }
  split; [exact Hw|].
  unfold monitor. rewrite trace_bind, terminal_reports_app, !count_app, Hw.
  rewrite watchContainer_no_report, watchContainer_unfold. cbn [trace fst].
  unfold awaitLooper, slice_to. rewrite decide_True by done.
  rewrite bind_mret, bind_emit. cbn [trace fst outcome snd].
  split; [by eexists|]. split; [reflexivity|].
  change (EvSleep SidecarBackoff :: ?t) with ([EvSleep SidecarBackoff] ++ t).
  rewrite !count_app, Hlist, Hstop. unfold count. simpl. lia.
Qed.

Lemma monitor_healthy_keeps_running_witness :
  Forall (healthy_pass Example.container) [Example.pass ALIVE; Example.pass UNKNOWN] ∧
  (12 ≤ String.length (ID Example.container))%nat ∧
  outcome (watchContainer Example.container [Example.pass ALIVE; Example.pass UNKNOWN])
    = Done StillLooping.
Proof.
  assert (H1 : Forall (healthy_pass Example.container)
                 [Example.pass ALIVE; Example.pass UNKNOWN]).
  { repeat (apply Forall_cons; split; [reflexivity|]). apply Forall_nil; exact I. }
  assert (H3 : (12 ≤ String.length (ID Example.container))%nat) by (simpl; lia).
  split; [exact H1|]. split; [exact H3|].
  apply (monitor_healthy_keeps_running Example.driver Example.taskInfo
           Example.container [Example.pass ALIVE; Example.pass UNKNOWN] H1 H3).
Defined.

(** X16. A panic inside a pass (Sidecar unreachable, for one) ends the watch
    goroutine with that panic: no status is reported for the task and the
    driver is not stopped. *)
Theorem monitor_panic_reports_nothing (drv : Driver) (ti : TaskInfo) (c : Container)
    (pre post : list IterWorld) (it : IterWorld) (msg : string) :
  Forall (healthy_pass c) pre →
  outcome (watchIteration c it) = Panic msg →
  outcome (monitor drv ti c (pre ++ it :: post)) = Panic msg ∧
  terminal_reports (trace (monitor drv ti c (pre ++ it :: post))) = [] ∧
  count is_stop (trace (monitor drv ti c (pre ++ it :: post))) = 0%nat.
Proof.
  intros Hpre Hit.
  destruct (looper_Loop_healthy (3 * time_Second) c pre (it :: post) Hpre)
    as (Hout & _ & _ & Hstop).
  cbn [looper_Loop] in Hout, Hstop.
  rewrite outcome_bind, Hit in Hout.
  rewrite trace_bind, Hit in Hstop. cbv beta iota in Hstop.
  rewrite app_nil_r in Hstop.
  destruct (watchIteration_counts c it) as [_ Hs]. rewrite Hs in Hstop.
  assert (Hw : outcome (watchContainer c (pre ++ it :: post)) = Panic msg).
  { rewrite watchContainer_unfold. exact Hout. }
  unfold monitor. rewrite outcome_bind, trace_bind, terminal_reports_app, count_app, Hw.
  rewrite watchContainer_no_report, watchContainer_unfold. cbn [trace fst].
  split; [reflexivity|]. split; [reflexivity|].
  change (EvSleep SidecarBackoff :: ?t) with ([EvSleep SidecarBackoff] ++ t).
  rewrite count_app, Hstop. reflexivity.
Qed.

Lemma monitor_panic_reports_nothing_witness :
  Forall (healthy_pass Example.container) [Example.pass ALIVE] ∧
  outcome (watchIteration Example.container Cases.pass_sidecar_down)
    = Panic "invalid memory address or nil pointer dereference" ∧
  terminal_reports
    (trace (monitor Example.driver Example.taskInfo Example.container
              ([Example.pass ALIVE] ++ Cases.pass_sidecar_down :: [])))
    = [].
Proof.
  assert (H1 : Forall (healthy_pass Example.container) [Example.pass ALIVE]).
  { apply Forall_cons; split; [reflexivity | apply Forall_nil; exact I]. }
  split; [exact H1|]. split; [reflexivity|].
  apply (monitor_panic_reports_nothing Example.driver Example.taskInfo
           Example.container [Example.pass ALIVE] [] Cases.pass_sidecar_down
           "invalid memory address or nil pointer dereference" H1 eq_refl).
Defined.

(** ** More on [KillTask] *)

(** X17. What [StopContainer] answers changes nothing but a log line: two
    Docker clients that agree on the inspection of the task id give
    [KillTask] the same calls, the same report and the same end. *)
Theorem KillTask_ignores_stop_error (drv : Driver) (dk dk' : Docker) (taskID : string) :
  InspectContainer dk taskID = InspectContainer dk' taskID →
  effects (trace (KillTask drv dk taskID)) = effects (trace (KillTask drv dk' taskID)) ∧
  terminal_reports (trace (KillTask drv dk taskID))
    = terminal_reports (trace (KillTask drv dk' taskID)) ∧
  outcome (KillTask drv dk taskID) = outcome (KillTask drv dk' taskID).
Proof.
  intros Hi.
  assert (Hk : kill_state dk taskID = kill_state dk' taskID)
    by (unfold kill_state; by rewrite Hi).
  rewrite !KillTask_effects, !KillTask_reports_once, !KillTask_outcome, Hk. done.
Qed.

Lemma KillTask_ignores_stop_error_witness :
  InspectContainer Example.docker_kill "web.4f2c1a"
    = InspectContainer Cases.docker_stop_fails "web.4f2c1a" ∧
  StopContainer Example.docker_kill "web.4f2c1a" KillTaskTimeout = None ∧
  StopContainer Cases.docker_stop_fails "web.4f2c1a" KillTaskTimeout
    = Some (foreign "docker" "cannot stop container") ∧
  effects (trace (KillTask Example.driver Example.docker_kill "web.4f2c1a"))
    = effects (trace (KillTask Example.driver Cases.docker_stop_fails "web.4f2c1a")).
Proof.
  split; [reflexivity|]. split; [reflexivity|]. split; [reflexivity|].
  apply (KillTask_ignores_stop_error Example.driver Example.docker_kill
           Cases.docker_stop_fails "web.4f2c1a" eq_refl).
Defined.

(** ** More on the log relay *)

Lemma sink_level_stdout : sink_level "stdout" = Info.
Proof. reflexivity. Qed.

Lemma sink_level_stderr : sink_level "stderr" = Error.
Proof. reflexivity. Qed.

(** A pass of a pump with a known name that has a line: the line goes to the
    sink at the level of the stream, then the channel is tried. *)
Lemma pump_step_line (p : Pump) (ch : Chan) (text : string) (rest : list string) :
  stream_name p = "stdout" ∨ stream_name p = "stderr" →
  returned p = false →
  scanner_lines p = text :: rest →
  pump_step p ch =
    (mkPump (stream_name p) rest (scanner_Err p) (try_recv ch).1
       (emitted p ++ [EvLog Debug ("docker: " +:+ text);
                      EvSyslog (sink_level (stream_name p)) text]),
     (try_recv ch).2).
Proof.
  intros Hname Hret Hlines. unfold pump_step. rewrite Hret, Hlines.
  destruct Hname as [Hn|Hn]; rewrite Hn; simpl;
    destruct (try_recv ch); by rewrite <- app_assoc.
Qed.

Lemma pump_run_S (fuel : nat) (p : Pump) (ch : Chan) :
  pump_run (S fuel) p ch =
    if returned (pump_step p ch).1 then pump_step p ch
    else pump_run fuel (pump_step p ch).1 (pump_step p ch).2.
Proof. cbn [pump_run]. by destruct (pump_step p ch). Qed.

(** X18. With the channel neither closed nor sent on, a pump named "stdout" or
    "stderr" forwards every line of its stream, in order, at info level for
    stdout and error level for stderr, and returns when the stream ends; a
    read error is logged once, after the last line. *)
Theorem handleOneStream_forwards_all (ch : Chan) (name : string)
    (lines : list string) (err : option error) :
  name = "stdout" ∨ name = "stderr" →
  idle ch →
  handleOneStream ch name lines err =
    (mkPump name [] err true
       (flat_map (fun text => [EvLog Debug ("docker: " +:+ text);
                               EvSyslog (sink_level name) text]) lines ++
        match err with
        | Some _ => [EvLog Error
            "handleOneStream() error reading Docker log input: '%s'. Exiting log pump '%s'."]
        | None => []
        end ++ [EvLog Warn "Log pump exited for '%s'"]),
     ch) ∧
  forwarded (handleOneStream ch name lines err).1
    = EvSyslog (sink_level name) <$> lines.
Proof.
  intros Hname [Hclosed Hsenders].
  assert (Hrecv : try_recv ch = (false, ch)).
  { unfold try_recv. rewrite Hsenders, Hclosed. reflexivity. }
  assert (Hrun : ∀ out,
    pump_run (S (length lines)) (mkPump name lines err false out) ch =
      (mkPump name [] err true
         (out ++ flat_map (fun text => [EvLog Debug ("docker: " +:+ text);
                                       EvSyslog (sink_level name) text]) lines ++
          match err with
          | Some _ => [EvLog Error
              "handleOneStream() error reading Docker log input: '%s'. Exiting log pump '%s'."]
          | None => []
          end ++ [EvLog Warn "Log pump exited for '%s'"]),
       ch)).
  { induction lines as [|text rest IH]; intros out.
    - reflexivity.
    - cbn [length]. rewrite pump_run_S.
      rewrite (pump_step_line (mkPump name (text :: rest) err false out) ch text rest
                 Hname eq_refl eq_refl), Hrecv.
      cbn [fst snd returned stream_name scanner_Err emitted].
      rewrite IH. cbn [flat_map]. by rewrite <- !app_assoc. }
  assert (Heq := Hrun []). cbn [app] in Heq.
  split; [exact Heq|].
  unfold handleOneStream, start_pump. rewrite Heq. unfold forwarded. cbn [fst emitted].
  rewrite filter_app.
  assert (Htail : filter (fun e => is_syslog e = true)
            (match err with
             | Some _ => [EvLog Error
                 "handleOneStream() error reading Docker log input: '%s'. Exiting log pump '%s'."]
             | None => []
             end ++ [EvLog Warn "Log pump exited for '%s'"]) = [])
    by (by destruct err).
  rewrite Htail, app_nil_r. clear.
  induction lines as [|text rest IH]; [reflexivity|].
  cbn [flat_map fmap list_fmap app]. rewrite filter_cons_False by done.
  rewrite filter_cons_True by done. by rewrite IH.
Qed.

Lemma handleOneStream_forwards_all_witness :
  ("stderr" = "stdout" ∨ "stderr" = "stderr") ∧
  idle (mkChan false 0) ∧
  forwarded (handleOneStream (mkChan false 0) "stderr" ["a"; "b"]
               (Some (foreign "bufio" "token too long"))).1
    = [EvSyslog Error "a"; EvSyslog Error "b"].
Proof.
  assert (H1 : "stderr" = "stdout" ∨ "stderr" = "stderr") by (right; reflexivity).
  assert (H2 : idle (mkChan false 0)) by (split; reflexivity).
  split; [exact H1|]. split; [exact H2|].
  apply (handleOneStream_forwards_all (mkChan false 0) "stderr" ["a"; "b"]
           (Some (foreign "bufio" "token too long")) H1 H2).
Defined.

(** What a pump has forwarded, followed by what its scanner still holds, does
    not change when a pump with a known name makes a pass. *)
Lemma pump_step_keeps_lines (p : Pump) (ch : Chan) :
  stream_name p = "stdout" ∨ stream_name p = "stderr" →
  stream_name (pump_step p ch).1 = stream_name p ∧
  forwarded (pump_step p ch).1
    ++ (EvSyslog (sink_level (stream_name p)) <$> scanner_lines (pump_step p ch).1)
  = forwarded p ++ (EvSyslog (sink_level (stream_name p)) <$> scanner_lines p).
Proof.
  intros Hname.
  destruct (returned p) eqn:Hret.
  { unfold pump_step. rewrite Hret. done. }
  destruct (scanner_lines p) as [|text rest] eqn:Hlines.
  - unfold pump_step. rewrite Hret, Hlines. cbn [fst stream_name scanner_lines].
    split; [reflexivity|]. unfold forwarded at 1. cbn [emitted].
    rewrite forwarded_app. destruct (scanner_Err p); simpl; by rewrite app_nil_r.
  - rewrite (pump_step_line p ch text rest Hname Hret Hlines).
    cbn [fst stream_name scanner_lines]. split; [reflexivity|].
    unfold forwarded at 1. cbn [emitted]. rewrite forwarded_app.
    rewrite filter_cons_False by done. rewrite filter_cons_True by done.
    rewrite filter_nil. cbn [fmap list_fmap]. by rewrite <- app_assoc.
Qed.

(** X19. Under every schedule of [relayLogs], what the stdout pump has sent to
    the sink followed by the lines it has not read yet is the stdout stream at
    info level, and likewise for stderr at error level: lines reach the sink
    in order, once, at the level of their stream, and nothing else does. *)
Theorem relayLogs_forwards_in_order (out_lines err_lines : list string)
    (out_err err_err : option error) (sched : list Action) :
  forwarded (pump1 (relay_run (relayLogs out_lines err_lines out_err err_err) sched))
    ++ (EvSyslog Info <$>
          scanner_lines
            (pump1 (relay_run (relayLogs out_lines err_lines out_err err_err) sched)))
  = EvSyslog Info <$> out_lines ∧
  forwarded (pump2 (relay_run (relayLogs out_lines err_lines out_err err_err) sched))
    ++ (EvSyslog Error <$>
          scanner_lines
            (pump2 (relay_run (relayLogs out_lines err_lines out_err err_err) sched)))
  = EvSyslog Error <$> err_lines.
Proof.
  assert (Hinv : ∀ r : Relay,
    stream_name (pump1 r) = "stdout" → stream_name (pump2 r) = "stderr" →
    stream_name (pump1 (relay_run r sched)) = "stdout" ∧
    stream_name (pump2 (relay_run r sched)) = "stderr" ∧
    forwarded (pump1 (relay_run r sched))
      ++ (EvSyslog Info <$> scanner_lines (pump1 (relay_run r sched)))
    = forwarded (pump1 r) ++ (EvSyslog Info <$> scanner_lines (pump1 r)) ∧
    forwarded (pump2 (relay_run r sched))
      ++ (EvSyslog Error <$> scanner_lines (pump2 (relay_run r sched)))
    = forwarded (pump2 r) ++ (EvSyslog Error <$> scanner_lines (pump2 r))).
  { induction sched as [|a sched IH]; intros r H1 H2; [done|].
    rewrite relay_run_cons.
    assert (Hstep :
      stream_name (pump1 (relay_step r a)) = "stdout" ∧
      stream_name (pump2 (relay_step r a)) = "stderr" ∧
      forwarded (pump1 (relay_step r a))
        ++ (EvSyslog Info <$> scanner_lines (pump1 (relay_step r a)))
      = forwarded (pump1 r) ++ (EvSyslog Info <$> scanner_lines (pump1 r)) ∧
      forwarded (pump2 (relay_step r a))
        ++ (EvSyslog Error <$> scanner_lines (pump2 (relay_step r a)))
      = forwarded (pump2 r) ++ (EvSyslog Error <$> scanner_lines (pump2 r))).
    { destruct a; cbn [relay_step].
      - destruct (pump_step_keeps_lines (pump1 r) (quitChan r)) as [Hn Hl];
          [by left|]. rewrite H1, sink_level_stdout in Hl. rewrite H1 in Hn.
        destruct (pump_step (pump1 r) (quitChan r)); done.
      - destruct (pump_step_keeps_lines (pump2 r) (quitChan r)) as [Hn Hl];
          [by right|]. rewrite H2, sink_level_stderr in Hl. rewrite H2 in Hn.
        destruct (pump_step (pump2 r) (quitChan r)); done.
      - destruct (relay_waiting r); [|done].
        destruct (try_recv (quitChan r)); done.
      - done.
      - done. }
    destruct Hstep as (S1 & S2 & S3 & S4).
    destruct (IH (relay_step r a) S1 S2) as (I1 & I2 & I3 & I4).
    split; [exact I1|]. split; [exact I2|]. split; congruence. }
  destruct (Hinv (relayLogs out_lines err_lines out_err err_err) eq_refl eq_refl)
    as (_ & _ & H3 & H4).
  split; [exact H3 | exact H4].
Qed.

(** A receive on a closed channel succeeds and leaves it closed. *)
Lemma try_recv_closed (ch : Chan) :
  closed ch = true → (try_recv ch).1 = true ∧ closed (try_recv ch).2 = true.
Proof. intros H. unfold try_recv. destruct (senders ch); simpl; auto. Qed.

Lemma pump_step_closed (p : Pump) (ch : Chan) :
  closed ch = true →
  returned (pump_step p ch).1 = true ∧ closed (pump_step p ch).2 = true.
Proof.
  intros Hc. destruct (try_recv_closed ch Hc) as [Hr Hc'].
  unfold pump_step. destruct (returned p) eqn:Hret; [done|].
  destruct (scanner_lines p) as [|text rest]; [done|].
  repeat case_decide; try done; destruct (try_recv ch); simpl in *; done.
Qed.

(** X20. Once [quitChan] is closed, each pump returns at its next pass and
    [relayLogs] returns at its receive, in whatever state the relay was; a
    pump that has just read a line still forwards it, because the channel is
    tried after the line has gone out. *)
Theorem relay_close_ends_all (r : Relay) (text : string) (rest : list string) :
  returned (pump1 (relay_run (relay_step r CloseQuit) [Pass1; Pass2; RelayRecv])) = true ∧
  returned (pump2 (relay_run (relay_step r CloseQuit) [Pass1; Pass2; RelayRecv])) = true ∧
  relay_waiting (relay_run (relay_step r CloseQuit) [Pass1; Pass2; RelayRecv]) = false ∧
  (stream_name (pump1 r) = "stdout" → returned (pump1 r) = false →
   scanner_lines (pump1 r) = text :: rest →
   forwarded (pump1 (relay_step (relay_step r CloseQuit) Pass1))
     = forwarded (pump1 r) ++ [EvSyslog Info text]).
Proof.
  set (r0 := relay_step r CloseQuit).
  assert (H0 : closed (quitChan r0) = true) by reflexivity.
  destruct (pump_step_closed (pump1 r0) (quitChan r0) H0) as [R1 C1].
  set (r1 := relay_step r0 Pass1).
  assert (H1 : closed (quitChan r1) = true ∧ returned (pump1 r1) = true).
  { unfold r1. cbn [relay_step].
    destruct (pump_step (pump1 r0) (quitChan r0)); done. }
  destruct H1 as [H1 P1].
  destruct (pump_step_closed (pump2 r1) (quitChan r1) H1) as [R2 C2].
  set (r2 := relay_step r1 Pass2).
  assert (H2 : closed (quitChan r2) = true ∧ returned (pump1 r2) = true ∧
               returned (pump2 r2) = true).
  { unfold r2. cbn [relay_step].
    destruct (pump_step (pump2 r1) (quitChan r1)); done. }
  destruct H2 as (H2 & P1' & P2).
  destruct (try_recv_closed (quitChan r2) H2) as [Hr _].
  change (relay_run r0 [Pass1; Pass2; RelayRecv]) with (relay_step r2 RelayRecv).
  split; [|split; [|split]].
  - cbn [relay_step]. destruct (relay_waiting r2); [|done].
    destruct (try_recv (quitChan r2)); done.
  - cbn [relay_step]. destruct (relay_waiting r2); [|done].
    destruct (try_recv (quitChan r2)); done.
  - cbn [relay_step]. destruct (relay_waiting r2) eqn:Hw; [|done].
    destruct (try_recv (quitChan r2)); simpl in *. by rewrite Hr.
  - intros Hname Hret Hlines. unfold r1, r0.
    change (relay_step (relay_step r CloseQuit) Pass1) with
      (let '(p, ch) := pump_step (pump1 r) (mkChan true (senders (quitChan r))) in
       mkRelay ch p (pump2 r) (relay_waiting r)).
    rewrite (pump_step_line (pump1 r) _ text rest (or_introl Hname) Hret Hlines).
    cbn [pump1]. unfold forwarded. cbn [emitted]. rewrite filter_app.
    rewrite filter_cons_False by done. rewrite filter_cons_True by done.
    by rewrite Hname.
Qed.



(** ** More on the life of a task *)

(** X22. Without a kill request, the first status a task reports is Running,
    sent right after the task info has been dumped, and at most one terminal
    state is reported in its whole life. *)
Theorem lifecycle_running_then_one_report (drv : Driver) (dk : Docker) (ti : TaskInfo)
    (its : list IterWorld) :
  (∃ rest, effects (lifecycle drv dk ti its None) =
     EvWriteFile "/tmp/taskinfo.json"
       :: EvSendStatusUpdate (Some TASK_RUNNING) (TaskId ti) :: rest) ∧
  (length (terminal_reports (lifecycle drv dk ti its None)) ≤ 1)%nat.
Proof.
  split; [|apply lifecycle_without_kill].
  destruct (LaunchTask_prefix drv dk ti) as [rest Hpre].
  unfold lifecycle.
  destruct (LaunchTask drv dk ti) as [t0 [[c|]|msg]]; cbn [trace fst] in Hpre;
    subst t0; cbn [app until_exit]; by eexists.
Qed.
